(** * Personal Fitness Tracker (pft.py): a shallow embedding and its properties

    The Streamlit script [pft.py] is embedded as follows.
    - Python numbers: [int] is [Z]; [float] is the kernel's binary64 type
      [float] (PrimFloat), whose operations are specified by the IEEE-754
      model [SpecFloat] of the library.
    - Python exceptions: an error monad ([result]); every script run threads
      the session state, the working directory and the rendered page.
    - pandas tables: a header and rows of cells; the working directory is a
      finite map from file names to file contents.
    - scikit-learn and the pandas relational operators are external
      libraries: they are taken as an interface ([Libs]). *)

From Stdlib Require Import ZArith Floats Lia Bool.
From stdpp Require Import gmap strings list fin_maps pretty.

#[local] Set Warnings "-inexact-float".
#[local] Open Scope Z_scope.

(** ** Python exceptions and the error monad *)

Inductive PyExc : Type :=
  | ZeroDivisionError
  | OverflowError
  | FileNotFoundError
  | ParserError
  | KeyError
  | IndexError
  | TypeError
  | ValueError.

Inductive result (A : Type) : Type :=
  | Ok (a : A)
  | Raise (e : PyExc).
Arguments Ok {A} a.
Arguments Raise {A} e.

#[global] Instance result_ret : MRet result := fun A a => Ok a.
#[global] Instance result_bind : MBind result := fun A B k r =>
  match r with
  | Ok a => k a
  | Raise e => Raise e
  end.

(** ** Python numbers *)

Inductive PyNum : Type :=
  | PyInt (z : Z)
  | PyFloat (f : float).

(** [a / b] on two ints (CPython [long_true_divide]): the quotient rounded
    once, to nearest-even, to a double; [ZeroDivisionError] on [b = 0];
    [OverflowError] when the rounded quotient is not finite; a zero
    dividend gives a zero whose sign is the sign of the divisor. *)
Definition int_truediv (a b : Z) : result float :=
  if b =? 0 then Raise ZeroDivisionError
  else
    let neg := xorb (a <? 0) (b <? 0) in
    if a =? 0 then Ok (SF2Prim (S754_zero neg))
    else
      let '(mz, ez, lz) := SFdiv_core_binary prec emax (Z.abs a) 0 (Z.abs b) 0 in
      match binary_round_aux prec emax neg mz ez lz with
      | S754_infinity _ => Raise OverflowError
      | q => Ok (SF2Prim q)
      end.

(** [float(z)] (CPython [PyLong_AsDouble]): nearest-even, [OverflowError]
    when the int is too large for a double. *)
Definition float_of_int (z : Z) : result float :=
  match binary_normalize prec emax z 0 false with
  | S754_infinity _ => Raise OverflowError
  | x => Ok (SF2Prim x)
  end.

(** [a / b] on two floats (CPython [float_div]). *)
Definition float_truediv (a b : float) : result float :=
  if (b =? 0)%float then Raise ZeroDivisionError else Ok (a / b)%float.

(** [x ** 2] on a float (CPython [float_pow] at the exponent [2.0]): a NaN
    is returned as it is, an infinity gives [+inf], and otherwise the C
    library's [pow x 2.0], taken here to be the IEEE product [x * x], with
    [OverflowError] when that result is infinite. *)
Definition float_pow_2 (x : float) : result float :=
  if is_nan x then Ok x
  else if is_infinity x then Ok infinity
  else
    let r := (x * x)%float in
    if is_infinity r then Raise OverflowError else Ok r.

(** The order between an int and a float is the order of their exact
    values (CPython [float_richcompare]); a NaN is unordered. *)
Definition int_float_compare (z : Z) (f : float) : option comparison :=
  match Prim2SF f with
  | S754_nan => None
  | S754_infinity s => Some (if s then Gt else Lt)
  | S754_zero _ => Some (z ?= 0)
  | S754_finite s m e =>
      let v := if s then Z.neg m else Z.pos m in
      Some (if 0 <=? e then z ?= v * 2 ^ e else z * 2 ^ (- e) ?= v)
  end.

Definition num_ltb (a b : PyNum) : bool :=
  match a, b with
  | PyInt x, PyInt y => x <? y
  | PyFloat x, PyFloat y => (x <? y)%float
  | PyInt x, PyFloat y =>
      match int_float_compare x y with Some Lt => true | _ => false end
  | PyFloat x, PyInt y =>
      match int_float_compare y x with Some Gt => true | _ => false end
  end.

Definition num_leb (a b : PyNum) : bool :=
  match a, b with
  | PyInt x, PyInt y => x <=? y
  | PyFloat x, PyFloat y => (x <=? y)%float
  | PyInt x, PyFloat y =>
      match int_float_compare x y with Some (Lt | Eq) => true | _ => false end
  | PyFloat x, PyInt y =>
      match int_float_compare y x with Some (Gt | Eq) => true | _ => false end
  end.

(** The format [f"{x:.2f}"]: the exact value of the double rounded
    half-even to two decimals. *)
Definition round_half_even_div (n d : Z) : Z :=
  let q := n / d in
  let r := n mod d in
  match 2 * r ?= d with
  | Lt => q
  | Gt => q + 1
  | Eq => if Z.even q then q else q + 1
  end.

Definition two_digits (n : Z) : string :=
  if n <? 10 then "0" +:+ pretty n else pretty n.

Definition format_2f (f : float) : string :=
  let sign (s : bool) : string := if s then "-" else "" in
  match Prim2SF f with
  | S754_nan => "nan"
  | S754_infinity s => sign s +:+ "inf"
  | S754_zero s => sign s +:+ "0.00"
  | S754_finite s m e =>
      let n := round_half_even_div (100 * Z.pos m * 2 ^ Z.max e 0) (2 ^ Z.max (- e) 0) in
      sign s +:+ pretty (n / 100) +:+ "." +:+ two_digits (n mod 100)
  end.

(** ** Helper functions of the script (lines 12-23) *)

(** [calculate_bmi]: both arguments are the ints of the profile's
    [number_input] widgets (integer bounds, lines 76 and 78). *)
Definition calculate_bmi (height weight : Z) : result PyNum :=
  if 0 <? height then
    q ← int_truediv height 100;
    d ← float_pow_2 q;
    w ← float_of_int weight;
    r ← float_truediv w d;
    Ok (PyFloat r)
  else Ok (PyInt 0).

Definition get_bmi_category (bmi : PyNum) : string :=
  if num_ltb bmi (PyFloat 18.5) then "Underweight"
  else if num_leb (PyFloat 18.5) bmi && num_ltb bmi (PyFloat 24.9) then "Normal weight"
  else if num_leb (PyInt 25) bmi && num_ltb bmi (PyFloat 29.9) then "Overweight"
  else "Obese".

(** ** pandas tables (the part of [DataFrame] the script uses) *)

Inductive Cell : Type :=
  | CNaN
  | CInt (z : Z)
  | CFloat (f : float)
  | CStr (s : string)
  | CDate (d : Z)
  | CTimestamp (t : Z).

Record DataFrame : Type := mkDataFrame {
  columns : list string;
  rows : list (list Cell)
}.

(** A Python dict literal, in insertion order. *)
Definition PyDict : Type := list (string * Cell).

Fixpoint assoc (k : string) (r : PyDict) : option Cell :=
  match r with
  | [] => None
  | (k', v) :: r' => if String.eqb k k' then Some v else assoc k r'
  end.

(** The cells of a record in the order of [cols]; an absent key is NaN. *)
Definition reindex (cols : list string) (r : PyDict) : list Cell :=
  map (fun c => default CNaN (assoc c r)) cols.

(** [pd.DataFrame([r])]: one row, the columns are the keys of [r]. *)
Definition frame_of_record (r : PyDict) : DataFrame :=
  mkDataFrame (r.*1) [r.*2].

(** [pd.DataFrame([r], columns=cols)]. *)
Definition frame_of_record_cols (r : PyDict) (cols : list string) : DataFrame :=
  mkDataFrame cols [reindex cols r].

Definition elem_ofb (c : string) (cols : list string) : bool :=
  existsb (String.eqb c) cols.

(** [pd.concat([a, b], ignore_index=True)]: the rows of [a] then the rows
    of [b], over the columns of [a] followed by the new columns of [b]
    (outer join, unsorted); a cell without a value is NaN. *)
Definition concat (a b : DataFrame) : DataFrame :=
  let cols := columns a ++ filter (fun c => negb (elem_ofb c (columns a))) (columns b) in
  let align (d : DataFrame) (row : list Cell) := reindex cols (zip (columns d) row) in
  mkDataFrame cols (map (align a) (rows a) ++ map (align b) (rows b)).

(** [df.empty]: some axis has length zero. *)
Definition empty (df : DataFrame) : bool :=
  match rows df, columns df with
  | [], _ | _, [] => true
  | _, _ => false
  end.

(** [df[name]]. *)
Definition get_col (df : DataFrame) (name : string) : result (list Cell) :=
  if elem_ofb name (columns df)
  then Ok (map (fun row => default CNaN (assoc name (zip (columns df) row))) (rows df))
  else Raise KeyError.

(** [df[name] = vals]: replaces the column, or adds it as the last one. *)
Definition set_col (df : DataFrame) (name : string) (vals : list Cell) : DataFrame :=
  let cols := if elem_ofb name (columns df) then columns df else columns df ++ [name] in
  mkDataFrame cols
    (zip_with (fun row v => reindex cols ((name, v) :: zip (columns df) row)) (rows df) vals).

(** [df[names]]. *)
Definition select_cols (df : DataFrame) (names : list string) : result DataFrame :=
  if forallb (fun c => elem_ofb c (columns df)) names
  then Ok (mkDataFrame names (map (fun row => reindex names (zip (columns df) row)) (rows df)))
  else Raise KeyError.

(** A numeric cell as a float64 (numpy); arithmetic on a column of
    another type is a [TypeError]. *)
Definition cell_float (c : Cell) : result float :=
  match c with
  | CFloat f => Ok f
  | CInt z => Ok (SF2Prim (binary_normalize prec emax z 0 false))
  | CNaN => Ok nan
  | CStr _ | CDate _ | CTimestamp _ => Raise TypeError
  end.

Fixpoint mapM {A B} (f : A -> result B) (l : list A) : result (list B) :=
  match l with
  | [] => Ok []
  | x :: l' => y ← f x; ys ← mapM f l'; Ok (y :: ys)
  end.

(** ** The working directory *)

(** A file holds a table ([to_csv] writes the header and the rows,
    [read_csv] reads them back; the text of a cell is not modelled) or
    something [read_csv] cannot parse. *)
Inductive FileContent : Type :=
  | Csv (df : DataFrame)
  | Unparsable.

Definition read_csv (fs : gmap string FileContent) (file_name : string) : result DataFrame :=
  match fs !! file_name with
  | None => Raise FileNotFoundError
  | Some (Csv df) => Ok df
  | Some Unparsable => Raise ParserError
  end.

Definition to_csv (fs : gmap string FileContent) (file_name : string) (data : DataFrame)
  : gmap string FileContent :=
  <[file_name := Csv data]> fs.

(** Lines 25-32. *)
Definition save_data (fs : gmap string FileContent) (file_name : string) (data : DataFrame)
  : gmap string FileContent :=
  to_csv fs file_name data.

Definition load_data (fs : gmap string FileContent) (file_name : string)
    (default_columns : list string) : result DataFrame :=
  match read_csv fs file_name with
  | Raise FileNotFoundError => Ok (mkDataFrame default_columns [])
  | r => r
  end.

(** ** External libraries *)

(** scikit-learn's estimator and splitter, and the pandas functions whose
    results the script only passes on.  A random procedure is a function
    of the generator it draws from and returns the generator it leaves. *)
Class Libs : Type := {
  Model : Type;
  Rng : Type;
  seed_rng : Z -> Rng;
  shuffle_split :
    float -> DataFrame -> list Cell -> Rng ->
    result (DataFrame * DataFrame * list Cell * list Cell) * Rng;
  forest_fit : Z -> Z -> DataFrame -> list Cell -> Rng -> result Model * Rng;
  forest_predict : Model -> DataFrame -> result (list float);
  pd_merge : DataFrame -> DataFrame -> string -> result DataFrame;
  pd_get_dummies : DataFrame -> list string -> result DataFrame;
  pd_to_datetime : list Cell -> result (list Cell)
}.

(** ** One process of the application *)

Record Profile : Type := mkProfile {
  gender : string;
  height : Z;
  weight : Z;
  age : Z;
  bmi : PyNum
}.

Inductive Figure : Type :=
  | PxLine (data : DataFrame) (x : string) (y : list string) (title : string)
      (markers : bool) (labels : list (string * string))
  | PxBar (data : DataFrame) (x y color title : string).

(** What a run renders on the page. *)
Inductive UI : Type :=
  | StTitle (s : string)
  | StHeader (s : string)
  | StSubheader (s : string)
  | StMetric (label value : string)
  | StInfo (s : string)
  | StSuccess (s : string)
  | StWarning (s : string)
  | StPlotlyChart (fig : Figure).

Section App.
Context `{L : Libs}.

(** The state a run works on: the resource cache of the process
    ([st.cache_resource]), the session state, the working directory, the
    process-wide random generator, and the page rendered so far. *)
Record World : Type := mkWorld {
  cache : option (Model * list string);
  session_profile : option Profile;
  files : gmap string FileContent;
  ambient_rng : Rng;
  page : list UI
}.

(** A run either completes or stops at the first uncaught exception; what
    it did to the state before stays done. *)
Definition App (A : Type) : Type := World -> result A * World.

#[global] Instance app_ret : MRet App := fun A a w => (Ok a, w).
#[global] Instance app_bind : MBind App := fun A B k m w =>
  match m w with
  | (Ok a, w') => k a w'
  | (Raise e, w') => (Raise e, w')
  end.

Definition lift {A} (r : result A) : App A := fun w => (r, w).
Definition get_files : App (gmap string FileContent) := fun w => (Ok (files w), w).
Definition put_files (fs : gmap string FileContent) : App unit := fun w =>
  (Ok tt, mkWorld (cache w) (session_profile w) fs (ambient_rng w) (page w)).
Definition get_profile : App (option Profile) := fun w => (Ok (session_profile w), w).
Definition put_profile (p : Profile) : App unit := fun w =>
  (Ok tt, mkWorld (cache w) (Some p) (files w) (ambient_rng w) (page w)).
Definition get_cache : App (option (Model * list string)) := fun w => (Ok (cache w), w).
Definition put_cache (c : Model * list string) : App unit := fun w =>
  (Ok tt, mkWorld (Some c) (session_profile w) (files w) (ambient_rng w) (page w)).
Definition st (u : UI) : App unit := fun w =>
  (Ok tt, mkWorld (cache w) (session_profile w) (files w) (ambient_rng w) (page w ++ [u])).

(** scikit-learn's [random_state] argument ([check_random_state]): an int
    seeds a generator of its own; [None] draws from the process-wide one. *)
Definition with_random_state {A} (random_state : option Z)
    (f : Rng -> result A * Rng) : App A := fun w =>
  match random_state with
  | Some seed => (fst (f (seed_rng seed)), w)
  | None =>
      let '(r, g) := f (ambient_rng w) in
      (r, mkWorld (cache w) (session_profile w) (files w) g (page w))
  end.

Definition train_test_split (X : DataFrame) (y : list Cell) (test_size : float)
    (random_state : option Z) : App (DataFrame * DataFrame * list Cell * list Cell) :=
  with_random_state random_state (shuffle_split test_size X y).

Definition RandomForestRegressor_fit (n_estimators max_depth : Z) (random_state : option Z)
    (X : DataFrame) (y : list Cell) : App Model :=
  with_random_state random_state (forest_fit n_estimators max_depth X y).

Definition app_load_data (file_name : string) (default_columns : list string) : App DataFrame :=
  fs ← get_files; lift (load_data fs file_name default_columns).

Definition app_save_data (file_name : string) (data : DataFrame) : App unit :=
  fs ← get_files; put_files (save_data fs file_name data).

Definition app_read_csv (file_name : string) : App DataFrame :=
  fs ← get_files; lift (read_csv fs file_name).

(** Lines 34-59. *)
Definition feature_names : list string :=
  ["Age"; "BMI"; "Duration"; "Heart_Rate"; "Body_Temp"; "Gender_Male"].

Definition bmi_column (weights heights : list float) : list Cell :=
  zip_with (fun w h => CFloat (w / ((h / 100) * (h / 100)))%float) weights heights.

Definition prepare_model : App (Model * list string) :=
  calories ← app_read_csv "calories.csv";
  exercise ← app_read_csv "exercise.csv";
  data ← lift (pd_merge exercise calories "User_ID");
  ws ← lift (cs ← get_col data "Weight"; mapM cell_float cs);
  hs ← lift (cs ← get_col data "Height"; mapM cell_float cs);
  let data := set_col data "BMI" (bmi_column ws hs) in
  data ← lift (pd_get_dummies data ["Gender"]);
  let data :=
    if elem_ofb "Gender_Male" (columns data) then data
    else set_col data "Gender_Male" (map (fun _ => CInt 0) (rows data)) in
  X ← lift (select_cols data feature_names);
  y ← lift (get_col data "Calories");
  '(X_train, X_test, y_train, y_test) ← train_test_split X y 0.2 (Some 1);
  model ← RandomForestRegressor_fit 1000 6 (Some 1) X_train y_train;
  mret (model, columns X).

(** [@st.cache_resource]: the first run of the process computes the
    value, later runs get the cached one. *)
Definition cache_resource (f : App (Model * list string)) : App (Model * list string) :=
  c ← get_cache;
  match c with
  | Some v => mret v
  | None => v ← f; put_cache v;; mret v
  end.
(** *** The widgets' values in one run *)

(** The button pressed in the interaction that started the run; a button
    reads [True] only in that run. *)
Inductive Click : Type :=
  | NoClick
  | UpdateProfile
  | LogCaloriesBurned
  | LogExercise
  | LogWaterIntake
  | LogSleepData.

Record Inputs : Type := mkInputs {
  in_gender : string;
  in_height : Z;
  in_weight : Z;
  in_age : Z;
  in_duration : Z;
  in_heart_rate : Z;
  in_body_temp : float;
  in_exercise_date : Z;
  in_exercise_type : string;
  in_exercise_duration : Z;
  in_water_date : Z;
  in_glasses : Z;
  in_sleep_date : Z;
  in_sleep_duration : float;
  in_sleep_quality : Z;
  clicked : Click;
  now : Z
}.

(** The values the widgets can hold (lines 74-80, 102-104, 139-140, 158,
    177-178). *)
Definition widget_ranges (i : Inputs) : Prop :=
  in_gender i ∈ ["Male"; "Female"; "Other"] ∧
  100 ≤ in_height i ≤ 250 ∧ 30 ≤ in_weight i ≤ 200 ∧ 15 ≤ in_age i ≤ 100 ∧
  in_duration i ∈ [10; 20; 30; 40; 50; 60] ∧
  in_heart_rate i ∈ [60; 90; 120; 150; 180] ∧
  in_body_temp i ∈ [36.0; 37.0; 38.0; 39.0; 40.0; 41.0; 42.0]%float ∧
  in_exercise_type i ∈ ["Running"; "Walking"; "Cycling"; "Swimming"; "Weight Training"] ∧
  0 ≤ in_exercise_duration i ∧ 0 ≤ in_glasses i ∧
  (0 <=? in_sleep_duration i)%float = true ∧ (in_sleep_duration i <=? 24)%float = true ∧
  in_sleep_quality i ∈ [1; 2; 3; 4; 5].

(** *** Profile tab (lines 69-90) *)

Definition cell_of_num (n : PyNum) : Cell :=
  match n with
  | PyInt z => CInt z
  | PyFloat f => CFloat f
  end.

Definition num_format_2f (n : PyNum) : result string :=
  match n with
  | PyInt z => f ← float_of_int z; Ok (format_2f f)
  | PyFloat f => Ok (format_2f f)
  end.

Definition profile_tab (i : Inputs) : App unit :=
  st (StHeader "User Profile");;
  match clicked i with
  | UpdateProfile =>
      bmi ← lift (calculate_bmi (in_height i) (in_weight i));
      put_profile (mkProfile (in_gender i) (in_height i) (in_weight i) (in_age i) bmi);;
      st (StSuccess "Profile Updated!")
  | _ => mret tt
  end;;
  p ← get_profile;
  match p with
  | Some profile =>
      v ← lift (num_format_2f (bmi profile));
      st (StMetric "Current BMI" v);;
      st (StInfo ("Category: " +:+ get_bmi_category (bmi profile)))
  | None => mret tt
  end.

(** *** Daily tracking tab (lines 93-185) *)

Definition gender_male (g : string) : Z :=
  if String.eqb g "Male" then 1 else 0.

Definition user_data (feature_columns : list string) (profile : Profile)
    (duration heart_rate : Z) (body_temp : float) : DataFrame :=
  frame_of_record_cols
    [("Age", CInt (age profile));
     ("BMI", cell_of_num (bmi profile));
     ("Duration", CInt duration);
     ("Heart_Rate", CInt heart_rate);
     ("Body_Temp", CFloat body_temp);
     ("Gender_Male", CInt (gender_male (gender profile)))]
    feature_columns.

(** [model.predict(user_data)[0]]. *)
Definition predict_0 (model : Model) (data : DataFrame) : result float :=
  ps ← forest_predict model data;
  match ps with
  | p :: _ => Ok p
  | [] => Raise IndexError
  end.

Definition calorie_file : string := "calorie_data.csv".
Definition calorie_columns : list string := ["date"; "calories_consumed"; "calories_burned"].
Definition exercise_file : string := "exercise_data.csv".
Definition exercise_columns : list string := ["date"; "exercise_type"; "duration"].
Definition water_file : string := "water_data.csv".
Definition water_columns : list string := ["date"; "glasses"].
Definition sleep_file : string := "sleep_data.csv".
Definition sleep_columns : list string := ["date"; "hours_slept"; "sleep_quality"].

Definition calorie_new_row (i : Inputs) (prediction : float) : PyDict :=
  [("date", CTimestamp (now i)); ("calories_consumed", CInt 0);
   ("calories_burned", CFloat prediction)].

Definition calorie_tab (model : Model) (feature_columns : list string)
    (profile : Profile) (i : Inputs) : App unit :=
  st (StSubheader "Predict Calories Burned");;
  let user_data :=
    user_data feature_columns profile (in_duration i) (in_heart_rate i) (in_body_temp i) in
  prediction ← lift (predict_0 model user_data);
  st (StMetric "Predicted Calories Burned" (format_2f prediction +:+ " kcal"));;
  match clicked i with
  | LogCaloriesBurned =>
      calorie_data ← app_load_data calorie_file calorie_columns;
      let new_row := calorie_new_row i prediction in
      let calorie_data := concat calorie_data (frame_of_record new_row) in
      app_save_data calorie_file calorie_data;;
      st (StSuccess "Calories burned logged successfully!")
  | _ => mret tt
  end.

Definition exercise_new_row (i : Inputs) : PyDict :=
  [("date", CDate (in_exercise_date i)); ("exercise_type", CStr (in_exercise_type i));
   ("duration", CInt (in_exercise_duration i))].

Definition exercise_tab (i : Inputs) : App unit :=
  st (StSubheader "Log Exercise Data");;
  exercise_data ← app_load_data exercise_file exercise_columns;
  match clicked i with
  | LogExercise =>
      let new_row := exercise_new_row i in
      let exercise_data := concat exercise_data (frame_of_record new_row) in
      app_save_data exercise_file exercise_data;;
      st (StSuccess "Exercise Data Logged Successfully!")
  | _ => mret tt
  end.

Definition water_new_row (i : Inputs) : PyDict :=
  [("date", CDate (in_water_date i)); ("glasses", CInt (in_glasses i))].

Definition water_tab (i : Inputs) : App unit :=
  st (StSubheader "Log Water Intake");;
  water_data ← app_load_data water_file water_columns;
  match clicked i with
  | LogWaterIntake =>
      let new_row := water_new_row i in
      let water_data := concat water_data (frame_of_record new_row) in
      app_save_data water_file water_data;;
      st (StSuccess "Water Intake Logged Successfully!")
  | _ => mret tt
  end.

Definition sleep_new_row (i : Inputs) : PyDict :=
  [("date", CDate (in_sleep_date i)); ("hours_slept", CFloat (in_sleep_duration i));
   ("sleep_quality", CInt (in_sleep_quality i))].

Definition sleep_tab (i : Inputs) : App unit :=
  st (StSubheader "Log Sleep Data");;
  sleep_data ← app_load_data sleep_file sleep_columns;
  match clicked i with
  | LogSleepData =>
      let new_row := sleep_new_row i in
      let sleep_data := concat sleep_data (frame_of_record new_row) in
      app_save_data sleep_file sleep_data;;
      st (StSuccess "Sleep Data Logged Successfully!")
  | _ => mret tt
  end.

Definition tracking_tab (model : Model) (feature_columns : list string) (i : Inputs)
  : App unit :=
  p ← get_profile;
  match p with
  | Some profile =>
      st (StSubheader "Daily Tracking Features");;
      calorie_tab model feature_columns profile i;;
      exercise_tab i;;
      water_tab i;;
      sleep_tab i
  | None => mret tt
  end.

(** *** Progress tab (lines 188-246) *)

(** [data['date'] = pd.to_datetime(data['date'])]. *)
Definition coerce_date (data : DataFrame) : result DataFrame :=
  cs ← get_col data "date";
  ds ← pd_to_datetime cs;
  Ok (set_col data "date" ds).

(** plotly express refuses a column name that the table does not have. *)
Definition px_line (data : DataFrame) (x : string) (y : list string) (title : string)
    (markers : bool) (labels : list (string * string)) : result Figure :=
  if forallb (fun c => elem_ofb c (columns data)) (x :: y)
  then Ok (PxLine data x y title markers labels) else Raise ValueError.

Definition px_bar (data : DataFrame) (x y color title : string) : result Figure :=
  if forallb (fun c => elem_ofb c (columns data)) [x; y; color]
  then Ok (PxBar data x y color title) else Raise ValueError.

Definition calorie_chart : App unit :=
  calorie_data ← app_load_data calorie_file calorie_columns;
  if negb (empty calorie_data) then
    calorie_data ← lift (coerce_date calorie_data);
    fig ← lift (px_line calorie_data "date" ["calories_consumed"; "calories_burned"]
                  "Calorie Tracking Over Time" true []);
    st (StPlotlyChart fig)
  else
    st (StWarning "No calorie data available. Please log your activity in Daily Tracking.").

Definition exercise_chart : App unit :=
  exercise_data ← app_load_data exercise_file exercise_columns;
  if negb (empty exercise_data) then
    exercise_data ← lift (coerce_date exercise_data);
    fig ← lift (px_bar exercise_data "date" "duration" "exercise_type"
                  "Exercise Duration Over Time");
    st (StPlotlyChart fig)
  else mret tt.

Definition water_chart : App unit :=
  water_data ← app_load_data water_file water_columns;
  if negb (empty water_data) then
    water_data ← lift (coerce_date water_data);
    fig ← lift (px_line water_data "date" ["glasses"] "Water Intake Over Time" true []);
    st (StPlotlyChart fig)
  else
    st (StWarning "No water intake data available. Please log your water intake.").

Definition sleep_chart : App unit :=
  sleep_data ← app_load_data sleep_file sleep_columns;
  if negb (empty sleep_data) then
    sleep_data ← lift (coerce_date sleep_data);
    fig_hours ← lift (px_line sleep_data "date" ["hours_slept"] "Sleep Duration Over Time"
                        true [("hours_slept", "Hours Slept")]);
    st (StPlotlyChart fig_hours);;
    fig_quality ← lift (px_line sleep_data "date" ["sleep_quality"] "Sleep Quality Over Time"
                          true [("sleep_quality", "Quality (1-5)")]);
    st (StPlotlyChart fig_quality)
  else
    st (StWarning "No sleep data available. Please log your sleep details in Daily Tracking.").

Definition visualize_tab : App unit :=
  st (StHeader "Progress Over Time");;
  calorie_chart;;
  exercise_chart;;
  water_chart;;
  sleep_chart.

(** *** The script, and a run of it *)

Definition script (i : Inputs) : App unit :=
  '(model, feature_columns) ← cache_resource prepare_model;
  st (StTitle "🏃‍♂️ Personal Fitness Tracker");;
  profile_tab i;;
  tracking_tab model feature_columns i;;
  visualize_tab.

(** Every interaction reruns the script on a fresh page. *)
Definition run (i : Inputs) (w : World) : result unit * World :=
  script i (mkWorld (cache w) (session_profile w) (files w) (ambient_rng w) []).

(** The state after a sequence of interactions. *)
Definition runs (inputs : list Inputs) (w : World) : World :=
  foldl (fun w i => snd (run i w)) w inputs.
End App.

(** ** The four tracking categories *)

Inductive Category : Type := Calories | Exercise | Water | Sleep.

Definition category_file (c : Category) : string :=
  match c with
  | Calories => calorie_file
  | Exercise => exercise_file
  | Water => water_file
  | Sleep => sleep_file
  end.

Definition category_columns (c : Category) : list string :=
  match c with
  | Calories => calorie_columns
  | Exercise => exercise_columns
  | Water => water_columns
  | Sleep => sleep_columns
  end.

Definition category_click (c : Category) : Click :=
  match c with
  | Calories => LogCaloriesBurned
  | Exercise => LogExercise
  | Water => LogWaterIntake
  | Sleep => LogSleepData
  end.

(** ** Vocabulary of the properties *)

Definition returns_float (r : result PyNum) : bool :=
  match r with
  | Ok (PyFloat _) => true
  | _ => false
  end.

(** A spec float that is a zero, an infinity or a finite number of the
    given sign (and so not a NaN). *)
Definition sign_or_zero (s : bool) (x : spec_float) : Prop :=
  x = S754_zero s \/ x = S754_infinity s \/ exists m e, x = S754_finite s m e.

Section Vocabulary.
Context `{L : Libs}.

(** [keeps f w w']: between [w] and [w'] no file other than [f] was
    written, a cached resource stayed cached, and a profile that was set
    stayed set. *)
Definition keeps (f : option string) (w w' : World) : Prop :=
  (forall g, Some g <> f -> files w' !! g = files w !! g) /\
  (forall c, cache w = Some c -> cache w' = Some c) /\
  (is_Some (session_profile w) -> is_Some (session_profile w')).

(** [frames R m]: whatever [m] does, and whether or not it raises, the
    state it leaves is [R]-related to the state it started from. *)
Definition frames (R : relation World) {A} (m : App A) : Prop :=
  forall w, R w (snd (m w)).

(** The file a run may write, by the button that started it. *)
Definition written_file (c : Click) : option string :=
  match c with
  | LogCaloriesBurned => Some calorie_file
  | LogExercise => Some exercise_file
  | LogWaterIntake => Some water_file
  | LogSleepData => Some sleep_file
  | NoClick | UpdateProfile => None
  end.

(** The record a run logs for a category. *)
Definition new_row (c : Category) (i : Inputs) (prediction : float) : PyDict :=
  match c with
  | Calories => calorie_new_row i prediction
  | Exercise => exercise_new_row i
  | Water => water_new_row i
  | Sleep => sleep_new_row i
  end.

Definition logged_row (c : Category) (i : Inputs) (row : list Cell) : Prop :=
  exists prediction, row = (new_row c i prediction).*2.


(** [preserves I m]: [m] keeps [I], whether it completes or raises. *)
Definition preserves (I : World -> Prop) {A} (m : App A) : Prop :=
  forall w, I w -> I (snd (m w)).












(** [same proj w w']: [w'] has the [proj] of [w]. *)
Definition same {T} (proj : World -> T) : relation World :=
  fun w w' => proj w' = proj w.

(** [while_no_profile w w']: if [w] has no profile, [w'] has none either
    and has the same files. *)
Definition while_no_profile (w w' : World) : Prop :=
  session_profile w = None -> session_profile w' = None /\ files w' = files w.

(** The stored BMI is the BMI of the stored height and weight. *)
Definition profile_bmi_ok (w : World) : Prop :=
  forall p, session_profile w = Some p -> calculate_bmi (height p) (weight p) = Ok (bmi p).

(** The state after a sequence of runs that all complete. *)
Fixpoint run_all (inputs : list Inputs) (w : World) : option World :=
  match inputs with
  | [] => Some w
  | i :: rest =>
      match run i w with
      | (Ok _, w') => run_all rest w'
      | (Raise _, _) => None
      end
  end.

(** The chart of a category, and the figures it shows for a table. *)
Definition category_chart (c : Category) : App unit :=
  match c with
  | Calories => calorie_chart
  | Exercise => exercise_chart
  | Water => water_chart
  | Sleep => sleep_chart
  end.

Definition category_figures (c : Category) (data : DataFrame) : list Figure :=
  match c with
  | Calories =>
      [PxLine data "date" ["calories_consumed"; "calories_burned"]
         "Calorie Tracking Over Time" true []]
  | Exercise =>
      [PxBar data "date" "duration" "exercise_type" "Exercise Duration Over Time"]
  | Water => [PxLine data "date" ["glasses"] "Water Intake Over Time" true []]
  | Sleep =>
      [PxLine data "date" ["hours_slept"] "Sleep Duration Over Time" true
         [("hours_slept", "Hours Slept")];
       PxLine data "date" ["sleep_quality"] "Sleep Quality Over Time" true
         [("sleep_quality", "Quality (1-5)")]]
  end.

End Vocabulary.

(** The BMI of a height and weight, tested against bounds and against
    the BMI of the next weight and of the next height. *)
Definition bmi_in_range (h w : Z) : bool :=
  match calculate_bmi h w with
  | Ok (PyFloat b) => (4.8 <=? b)%float && (b <=? 200)%float
  | _ => false
  end.

Definition bmi_grows_with_weight (h w : Z) : bool :=
  match calculate_bmi h w, calculate_bmi h (w + 1) with
  | Ok (PyFloat b), Ok (PyFloat b') => (b <? b')%float
  | _, _ => false
  end.

Definition bmi_falls_with_height (h w : Z) : bool :=
  match calculate_bmi h w, calculate_bmi (h + 1) w with
  | Ok (PyFloat b), Ok (PyFloat b') => (b' <? b)%float
  | _, _ => false
  end.

(** ** A small instance of the library interface

    Used to run the script on concrete inputs: the "model" is a scale
    factor, a prediction is that factor times the row's [Duration]. *)

Definition demo_predict (k : float) (data : DataFrame) : result (list float) :=
  cs ← get_col data "Duration";
  ds ← mapM cell_float cs;
  Ok (map (fun d => (k * d)%float) ds).

#[local] Instance demo_libs : Libs := {|
  Model := float;
  Rng := Z;
  seed_rng := fun seed => seed;
  shuffle_split := fun _ X y g => (Ok (X, mkDataFrame (columns X) [], y, []), g + 1);
  forest_fit := fun n d X y g => (Ok (7)%float, g + 1);
  forest_predict := demo_predict;
  pd_merge := fun a b on => Ok (mkDataFrame (columns a ++ ["Calories"])
                                  (map (fun r => r ++ [CFloat 100]) (rows a)));
  pd_get_dummies := fun df cols => Ok (set_col df "Gender_Male" (map (fun _ => CInt 1) (rows df)));
  pd_to_datetime := fun cs => Ok cs
|}.

Definition demo_reference_files : gmap string FileContent :=
  {[ "calories.csv" := Csv (mkDataFrame ["User_ID"; "Calories"] [[CInt 1; CFloat 100]]);
     "exercise.csv" := Csv (mkDataFrame
        ["User_ID"; "Gender"; "Age"; "Height"; "Weight"; "Duration"; "Heart_Rate"; "Body_Temp"]
        [[CInt 1; CStr "male"; CInt 30; CFloat 180; CFloat 80; CFloat 20; CFloat 100; CFloat 40]]) ]}.

Definition demo_world : World :=
  mkWorld None None demo_reference_files 0 [].

Definition demo_inputs (c : Click) (t : Z) : Inputs :=
  mkInputs "Female" 180 80 30 20 120 38 t "Running" 30 t 8 t 7.5 4 c t.

(** A session with a profile, and two exercise logs after it. *)
Definition demo_w0 : World := runs [demo_inputs UpdateProfile 1] demo_world.
Definition demo_w1 : World := snd (run (demo_inputs LogExercise 3) demo_w0).
Definition demo_w2 : World := snd (run (demo_inputs LogExercise 4) demo_w1).

(** A water file written with another header. *)
Definition demo_stale_files : gmap string FileContent :=
  {[ "water_data.csv" := Csv (mkDataFrame ["day"; "glasses"] [[CDate 1; CInt 8]]) ]}.

(** * Properties *)

(** ** Facts about binary64 rounding *)

Lemma digits2_pos_size (p : positive) : digits2_pos p = Pos.size p.
Proof. induction p as [p IH | p IH |]; simpl; [rewrite IH..|]; reflexivity. Qed.

Lemma Zdigits2_log2 (p : positive) : Z.pos (digits2_pos p) = Z.log2 (Z.pos p) + 1.
Proof.
  destruct p as [p | p |]; simpl; try reflexivity;
    rewrite digits2_pos_size, Pos2Z.inj_succ; lia.
Qed.

Lemma Zdigits2_bounds (p : positive) :
  2 ^ (Z.pos (digits2_pos p) - 1) <= Z.pos p < 2 ^ Z.pos (digits2_pos p).
Proof.
  rewrite Zdigits2_log2.
  replace (Z.log2 (Z.pos p) + 1 - 1) with (Z.log2 (Z.pos p)) by lia.
  replace (Z.log2 (Z.pos p) + 1) with (Z.succ (Z.log2 (Z.pos p))) by lia.
  apply Z.log2_spec. lia.
Qed.

Lemma digits2_pos_53 (m : positive) :
  2 ^ 52 <= Z.pos m < 2 ^ 53 -> Z.pos (digits2_pos m) = 53.
Proof.
  intros H. rewrite Zdigits2_log2.
  rewrite (Z.log2_unique (Z.pos m) 52); [reflexivity | lia | exact H].
Qed.

Lemma shr_1_m (mrs : shr_record) :
  0 <= shr_m mrs -> shr_m (shr_1 mrs) = shr_m mrs / 2.
Proof.
  destruct mrs as [m r s]. simpl. intros Hm.
  destruct m as [| [p | p |] | p]; simpl; try reflexivity; try lia.
  - rewrite Pos2Z.inj_xI. apply Z.div_unique with (r := 1); lia.
  - rewrite Pos2Z.inj_xO. apply Z.div_unique with (r := 0); lia.
Qed.

Lemma iter_shr_1_m (p : positive) (mrs : shr_record) :
  0 <= shr_m mrs -> shr_m (SpecFloat.iter_pos shr_1 p mrs) = shr_m mrs / 2 ^ Z.pos p.
Proof.
  revert mrs. induction p as [p IH | p IH |]; intros mrs Hm; simpl SpecFloat.iter_pos.
  - assert (H1 : 0 <= shr_m (shr_1 mrs)) by (rewrite shr_1_m by lia; apply Z.div_pos; lia).
    assert (H2 : 0 <= shr_m (SpecFloat.iter_pos shr_1 p (shr_1 mrs)))
      by (rewrite IH by lia; apply Z.div_pos; lia).
    rewrite IH, IH, shr_1_m by lia.
    rewrite !Z.div_div by lia. f_equal.
    replace (Z.pos p~1) with (1 + Z.pos p + Z.pos p) by lia.
    rewrite !Z.pow_add_r by lia. change (2 ^ 1) with 2. lia.
  - assert (H2 : 0 <= shr_m (SpecFloat.iter_pos shr_1 p mrs))
      by (rewrite IH by lia; apply Z.div_pos; lia).
    rewrite IH, IH by lia.
    rewrite !Z.div_div by lia. f_equal.
    replace (Z.pos p~0) with (Z.pos p + Z.pos p) by lia.
    rewrite Z.pow_add_r by lia. reflexivity.
  - rewrite shr_1_m by lia. reflexivity.
Qed.

Lemma shr_record_of_loc_m (m : Z) (l : location) : shr_m (shr_record_of_loc m l) = m.
Proof. destruct l as [|[]]; reflexivity. Qed.

Lemma shr_spec (mrs : shr_record) (e n : Z) :
  0 <= shr_m mrs -> 0 <= n ->
  shr_m (fst (shr mrs e n)) = shr_m mrs / 2 ^ n /\ snd (shr mrs e n) = e + n.
Proof.
  intros Hm Hn. destruct n as [| p | p]; simpl; [| |lia].
  - rewrite Z.div_1_r. lia.
  - split; [apply iter_shr_1_m, Hm | reflexivity].
Qed.

Lemma round_nearest_even_bounds (m : Z) (l : location) :
  m <= round_nearest_even m l <= m + 1.
Proof. destruct l as [|[]]; simpl; try destruct (Z.even m); lia. Qed.

Lemma fexp_normal (k : Z) : -1021 <= k -> fexp prec emax k = k - 53.
Proof. intros H. unfold fexp, SpecFloat.emin, prec, emax. lia. Qed.

Lemma iter_xO_pow (m d : positive) : Z.pos (Pos.iter xO m d) = Z.pos m * 2 ^ Z.pos d.
Proof.
  change (Pos.iter xO m d) with (shift_pos d m).
  rewrite shift_pos_correct, Zpower_pos_nat, Zpower_nat_Z, positive_nat_Z. lia.
Qed.

(** Rounding a mantissa of at least 53 bits at an exponent in range: the
    mantissa is cut to 53 bits, the exponent grows by the bits cut (one
    more when the rounding carries), and the result is that normal double
    when its exponent is at most 971, and an infinity otherwise; it never
    underflows to zero. *)
Lemma binary_round_aux_shape (s : bool) (mx ex : Z) (lx : location) :
  2 ^ 52 <= mx -> -1074 <= ex ->
  exists m e,
    binary_round_aux prec emax s mx ex lx =
      (if e <=? 971 then S754_finite s m e else S754_infinity s) /\
    2 ^ 52 <= Z.pos m < 2 ^ 53 /\ ex <= e <= Zdigits2 mx + ex - 52.
Proof.
  intros Hmx Hex.
  destruct mx as [| p | p]; [elim Hmx; reflexivity | | elim Hmx; reflexivity].
  unfold binary_round_aux, shr_fexp.
  pose proof (Zdigits2_bounds p) as Hd. cbn [Zdigits2].
  remember (Z.pos (digits2_pos p)) as d eqn:Hdd.
  assert (Hdpos : 0 < d) by (subst d; lia). clear Hdd.
  assert (Hd53 : 53 <= d).
  { assert (2 ^ 52 < 2 ^ d) by lia. apply Z.pow_lt_mono_r_iff in H; lia. }
  rewrite fexp_normal by lia.
  replace (d + ex - 53 - ex) with (d - 53) by lia.
  pose proof (shr_spec (shr_record_of_loc (Z.pos p) lx) ex (d - 53)) as Hs.
  rewrite shr_record_of_loc_m in Hs. destruct Hs as [Hs1 Hs2]; [lia..|].
  destruct (shr (shr_record_of_loc (Z.pos p) lx) ex (d - 53)) as [mrs' e'].
  cbn [fst snd] in Hs1, Hs2.
  assert (Hm1 : 2 ^ 52 <= shr_m mrs' < 2 ^ 53).
  { rewrite Hs1. split.
    - apply Z.div_le_lower_bound; [apply Z.pow_pos_nonneg; lia|].
      rewrite <- Z.pow_add_r by lia. replace (d - 53 + 52) with (d - 1) by lia. lia.
    - apply Z.div_lt_upper_bound; [apply Z.pow_pos_nonneg; lia|].
      rewrite <- Z.pow_add_r by lia. replace (d - 53 + 53) with d by lia. lia. }
  pose proof (round_nearest_even_bounds (shr_m mrs') (loc_of_shr_record mrs')) as Hr.
  set (m2 := round_nearest_even (shr_m mrs') (loc_of_shr_record mrs')) in *.
  change (2 ^ 52) with 4503599627370496 in *.
  change (2 ^ 53) with 9007199254740992 in *.
  destruct (Z.eq_dec m2 9007199254740992) as [-> | Hne].
  - (* the rounding carried into the next binade *)
    change (Zdigits2 9007199254740992) with 54. rewrite fexp_normal by lia.
    replace (54 + e' - 53 - e') with 1 by lia. cbn. change (emax - prec) with 971.
    eexists _, (e' + 1). split; [reflexivity|]. lia.
  - destruct m2 as [| p2 | p2]; [lia | | lia].
    cbn [Zdigits2]. rewrite (digits2_pos_53 p2) by (cbn; lia).
    rewrite fexp_normal by lia. replace (53 + e' - 53 - e') with 0 by lia. cbn.
    change (emax - prec) with 971.
    exists p2, e'. split; [reflexivity|]. lia.
Qed.

(** Such a rounding gives a normal double, or overflows. *)
Lemma binary_round_aux_normal (s : bool) (mx ex : Z) (lx : location) :
  2 ^ 52 <= mx -> -1074 <= ex ->
  binary_round_aux prec emax s mx ex lx = S754_infinity s \/
  exists m e,
    binary_round_aux prec emax s mx ex lx = S754_finite s m e /\
    2 ^ 52 <= Z.pos m < 2 ^ 53 /\ ex <= e <= 971.
Proof.
  intros Hmx Hex.
  destruct (binary_round_aux_shape s mx ex lx Hmx Hex) as (m & e & -> & Hm & He).
  destruct (e <=? 971) eqn:Hle; [right | left; reflexivity].
  apply Z.leb_le in Hle. exists m, e. split; [reflexivity|]. lia.
Qed.

(** When the value is below [2 ^ 1023] it does not overflow. *)
Lemma binary_round_aux_finite (s : bool) (mx ex : Z) (lx : location) :
  2 ^ 52 <= mx -> -1074 <= ex -> Zdigits2 mx + ex <= 1023 ->
  exists m e,
    binary_round_aux prec emax s mx ex lx = S754_finite s m e /\
    2 ^ 52 <= Z.pos m < 2 ^ 53 /\ ex <= e <= Zdigits2 mx + ex - 52.
Proof.
  intros Hmx Hex Hdig.
  destruct (binary_round_aux_shape s mx ex lx Hmx Hex) as (m & e & -> & Hm & He).
  rewrite (proj2 (Z.leb_le e 971)) by lia. eauto.
Qed.

Lemma Zdigits2_le (p : positive) (k : Z) : Z.pos p < 2 ^ k -> Zdigits2 (Z.pos p) <= k.
Proof.
  intros H. cbn [Zdigits2]. pose proof (Zdigits2_bounds p) as [Hd _].
  destruct (Z.le_gt_cases (Z.pos (digits2_pos p)) k) as [|Hgt]; [assumption|].
  assert (0 <= k).
  { destruct (Z.le_gt_cases 0 k); [assumption|]. rewrite Z.pow_neg_r in H by lia. lia. }
  assert (2 ^ k <= 2 ^ (Z.pos (digits2_pos p) - 1)) by (apply Z.pow_le_mono_r; lia).
  lia.
Qed.

(** ** BMI categories *)

Lemma Prim2SF_18_5 : Prim2SF 18.5 = S754_finite false 5207287069147136 (-48).
Proof. reflexivity. Qed.

Lemma Prim2SF_24_9 : Prim2SF 24.9 = S754_finite false 7008726920095334 (-48).
Proof. reflexivity. Qed.

Lemma Prim2SF_29_9 : Prim2SF 29.9 = S754_finite false 8416101803648614 (-48).
Proof. reflexivity. Qed.

(** Two positive finite doubles are ordered by exponent, then mantissa. *)
Lemma SFcompare_pos_finite m1 e1 m2 e2 :
  SFcompare (S754_finite false m1 e1) (S754_finite false m2 e2) =
  Some match e1 ?= e2 with
       | Lt => Lt
       | Gt => Gt
       | Eq => Z.pos m1 ?= Z.pos m2
       end.
Proof. reflexivity. Qed.

(** A double that is at least 24.9: positive infinity, or a positive
    finite double above it in the (exponent, mantissa) order. *)
Lemma float_ge_24_9 (b : float) :
  (24.9 <=? b)%float = true ->
  Prim2SF b = S754_infinity false \/
  exists m e, Prim2SF b = S754_finite false m e /\
    (-48 < e \/ e = -48 /\ 7008726920095334 <= Z.pos m).
Proof.
  rewrite FloatAxioms.leb_spec, Prim2SF_24_9. unfold SFleb.
  destruct (Prim2SF b) as [s|[]| |[] m e]; try discriminate; [intros _; left; reflexivity|].
  rewrite SFcompare_pos_finite. intros H. right. exists m, e. split; [reflexivity|].
  destruct (Z.compare_spec (-48) e) as [He|He|He]; try discriminate; [right|left; lia].
  split; [lia|].
  destruct (Z.compare_spec 7008726920095334 (Z.pos m)); try discriminate; lia.
Qed.

Lemma float_ge_24_9_branches (b : float) :
  (24.9 <=? b)%float = true ->
  (b <? 18.5)%float = false /\ (b <? 24.9)%float = false.
Proof.
  intros H. rewrite !FloatAxioms.ltb_spec, Prim2SF_18_5, Prim2SF_24_9. unfold SFltb.
  destruct (float_ge_24_9 b H) as [-> | (m & e & -> & He)]; [split; reflexivity|].
  rewrite !SFcompare_pos_finite.
  destruct He as [He | [-> Hm]].
  - rewrite (proj2 (Z.compare_gt_iff e (-48))) by lia. split; reflexivity.
  - rewrite Z.compare_refl.
    destruct (Z.compare_spec (Z.pos m) 5207287069147136),
      (Z.compare_spec (Z.pos m) 7008726920095334); try lia; split; reflexivity.
Qed.

(** No int lies in the gap. *)
Lemma int_not_in_gap (z : Z) :
  num_leb (PyFloat 24.9) (PyInt z) = true -> num_ltb (PyInt z) (PyInt 25) = true -> False.
Proof.
  unfold num_leb, num_ltb, int_float_compare. rewrite Prim2SF_24_9.
  change (0 <=? -48) with false. change (2 ^ (- -48)) with 281474976710656. cbv iota.
  intros H1 H2%Z.ltb_lt.
  destruct (Z.compare_spec (z * 281474976710656) 7008726920095334); try discriminate; lia.
Qed.

(** At exactly 24.9 the category is not "Overweight". *)
Lemma bmi_24_9_not_overweight : get_bmi_category (PyFloat 24.9) <> "Overweight".
Proof. discriminate. Qed.

(** C1, as the code has it: a BMI of exactly 24.9 is not "Normal weight",
    whose branch tests [18.5 <= bmi < 24.9], and not "Overweight", whose
    branch tests [25 <= bmi < 29.9]; it passes no range check and takes
    the final branch, "Obese". *)
Theorem bmi_24_9_is_obese :
  num_ltb (PyFloat 24.9) (PyFloat 18.5) = false /\
  num_leb (PyFloat 18.5) (PyFloat 24.9) && num_ltb (PyFloat 24.9) (PyFloat 24.9) = false /\
  num_leb (PyInt 25) (PyFloat 24.9) && num_ltb (PyFloat 24.9) (PyFloat 29.9) = false /\
  get_bmi_category (PyFloat 24.9) = "Obese".
Proof. repeat split; reflexivity. Qed.

(** C2: every BMI with [24.9 <= bmi < 25] fails the test of each of the
    three explicit branches, and [get_bmi_category] returns "Obese". *)
Theorem bmi_gap_falls_through (bmi : PyNum) :
  num_leb (PyFloat 24.9) bmi = true ->
  num_ltb bmi (PyInt 25) = true ->
  num_ltb bmi (PyFloat 18.5) = false /\
  num_leb (PyFloat 18.5) bmi && num_ltb bmi (PyFloat 24.9) = false /\
  num_leb (PyInt 25) bmi && num_ltb bmi (PyFloat 29.9) = false /\
  get_bmi_category bmi = "Obese".
Proof.
  intros Hlo Hhi.
  destruct bmi as [z | b]; [destruct (int_not_in_gap z Hlo Hhi)|].
  assert (H1 : num_ltb (PyFloat b) (PyFloat 18.5) = false /\
               num_ltb (PyFloat b) (PyFloat 24.9) = false)
    by (apply float_ge_24_9_branches, Hlo).
  assert (H2 : num_leb (PyInt 25) (PyFloat b) = false).
  { cbn in Hhi |- *. destruct (int_float_compare 25 b) as [[]|]; done. }
  destruct H1 as [H1 H1'].
  unfold get_bmi_category. rewrite H1, H1', H2, andb_false_r. done.
Qed.

Lemma bmi_gap_falls_through_witness :
  get_bmi_category (PyFloat 24.95) = "Obese".
Proof.
  apply (bmi_gap_falls_through (PyFloat 24.95)); reflexivity.
Defined.

(** C5: height 180 and weight 80 give the BMI [80 / (180/100)**2], shown
    as "24.69"; it is below 24.9 and its category is "Normal weight". *)
Theorem bmi_180_80_normal :
  exists b : float,
    calculate_bmi 180 80 = Ok (PyFloat b) /\
    b = (80 / ((180 / 100) * (180 / 100)))%float /\
    num_format_2f (PyFloat b) = Ok "24.69" /\
    num_ltb (PyFloat b) (PyFloat 24.9) = true /\
    get_bmi_category (PyFloat b) = "Normal weight".
Proof.
  exists 24.691358024691358%float. repeat split; vm_compute; reflexivity.
Qed.

(** ** The guard of [calculate_bmi] *)


(** The quotient and exponent the division algorithm hands to the rounding
    for [p / 100]: at least 53 bits, and a value of no more bits than [p]. *)
Lemma SFdiv_core_100_bound (p : positive) :
  exists q e l,
    SFdiv_core_binary prec emax (Z.pos p) 0 100 0 = (q, e, l) /\
    2 ^ 52 <= q < 2 ^ (Zdigits2 (Z.pos p) - e) /\ -59 <= e <= 0.
Proof.
  unfold SFdiv_core_binary. change (Zdigits2 100) with 7. cbn [Zdigits2].
  pose proof (Zdigits2_bounds p) as Hd.
  remember (Z.pos (digits2_pos p)) as d eqn:Hdd.
  assert (Hdpos : 0 < d) by (subst d; lia). clear Hdd.
  rewrite fexp_normal by lia.
  replace (d + 0 - (7 + 0) - 53) with (d - 60) by lia.
  replace (0 - 0) with 0 by lia.
  destruct (Z.min_spec (d - 60) 0) as [[Hlt ->] | [Hge ->]].
  - replace (0 - (d - 60)) with (60 - d) by lia.
    destruct (60 - d) as [| s | s] eqn:Hs; [lia | | lia].
    rewrite Z.shiftl_mul_pow2 by lia.
    destruct (Z.div_eucl (Z.pos p * 2 ^ Z.pos s) 100) as [q r] eqn:Hq.
    exists q, (d - 60), (new_location 100 r).
    split; [reflexivity|]. split; [|lia].
    assert (q = Z.pos p * 2 ^ Z.pos s / 100) as -> by (unfold Z.div; rewrite Hq; reflexivity).
    assert (Hpow : 0 < 2 ^ Z.pos s) by (apply Z.pow_pos_nonneg; lia).
    split.
    + apply Z.div_le_lower_bound; [lia|].
      assert (H59 : 2 ^ 59 <= Z.pos p * 2 ^ Z.pos s).
      { replace 59 with (d - 1 + Z.pos s) by lia. rewrite Z.pow_add_r by lia.
        apply Z.mul_le_mono_nonneg_r; [lia | lia]. }
      change (2 ^ 59) with 576460752303423488 in H59.
      change (2 ^ 52) with 4503599627370496. lia.
    + replace (d - (d - 60)) with (d + Z.pos s) by lia. rewrite Z.pow_add_r by lia.
      apply Z.le_lt_trans with (Z.pos p * 2 ^ Z.pos s).
      * apply Z.div_le_upper_bound; [lia|]. nia.
      * apply Z.mul_lt_mono_pos_r; lia.
  - replace (0 - 0) with 0 by lia. cbv iota.
    destruct (Z.div_eucl (Z.pos p) 100) as [q r] eqn:Hq.
    exists q, 0, (new_location 100 r).
    split; [reflexivity|]. split; [|lia].
    assert (q = Z.pos p / 100) as -> by (unfold Z.div; rewrite Hq; reflexivity).
    split.
    + apply Z.div_le_lower_bound; [lia|].
      assert (H59 : 2 ^ 59 <= 2 ^ (d - 1)) by (apply Z.pow_le_mono_r; lia).
      change (2 ^ 59) with 576460752303423488 in H59.
      change (2 ^ 52) with 4503599627370496. lia.
    + replace (d - 0) with d by lia.
      apply Z.le_lt_trans with (Z.pos p); [|lia].
      apply Z.div_le_upper_bound; lia.
Qed.

Lemma SFdiv_core_100 (p : positive) :
  exists q e l,
    SFdiv_core_binary prec emax (Z.pos p) 0 100 0 = (q, e, l) /\
    2 ^ 52 <= q /\ -59 <= e <= 0.
Proof.
  destruct (SFdiv_core_100_bound p) as (q & e & l & H & Hq & He).
  exists q, e, l. split; [exact H|]. split; [apply Hq | exact He].
Qed.

(** [h / 100] for a positive int [h]: a normal double of exponent at least
    -59, unless it overflows. *)
Lemma int_truediv_100 (h : Z) :
  0 < h ->
  int_truediv h 100 = Raise OverflowError \/
  exists m e,
    int_truediv h 100 = Ok (SF2Prim (S754_finite false m e)) /\
    2 ^ 52 <= Z.pos m < 2 ^ 53 /\ -59 <= e <= 971.
Proof.
  intros Hh. destruct h as [| p | p]; [lia | | lia].
  unfold int_truediv. cbn [Z.eqb Z.ltb Z.compare xorb Z.abs].
  change (Z.abs (Z.pos p)) with (Z.pos p). change (Z.abs 100) with 100.
  destruct (SFdiv_core_100 p) as (q & e0 & l & -> & Hq & He0).
  destruct (binary_round_aux_normal false q e0 l Hq) as [-> | (m & e & -> & Hm & He)];
    [lia | left; reflexivity | right].
  exists m, e. split; [reflexivity|]. split; [exact Hm | lia].
Qed.

Lemma valid_normal (s : bool) (m : positive) (e : Z) :
  2 ^ 52 <= Z.pos m < 2 ^ 53 -> -1074 <= e <= 971 ->
  valid_binary (S754_finite s m e) = true.
Proof.
  intros Hm He. unfold SpecFloat.valid_binary, bounded, canonical_mantissa.
  rewrite (digits2_pos_53 m Hm), fexp_normal by lia.
  apply andb_true_intro. split; [apply Z.eqb_eq; lia | apply Z.leb_le; unfold emax, prec; lia].
Qed.

Lemma eqb_zero_finite (d : float) (s : bool) (m : positive) (e : Z) :
  Prim2SF d = S754_finite s m e -> (d =? 0)%float = false.
Proof. intros H. rewrite FloatAxioms.eqb_spec, H. destruct s; reflexivity. Qed.

Lemma eqb_zero_infinity (d : float) (s : bool) :
  Prim2SF d = S754_infinity s -> (d =? 0)%float = false.
Proof. intros H. rewrite FloatAxioms.eqb_spec, H. destruct s; reflexivity. Qed.

(** The square of a normal double of exponent at least -59 is not zero. *)
Lemma square_nonzero (m : positive) (e : Z) :
  2 ^ 52 <= Z.pos m < 2 ^ 53 -> -59 <= e <= 971 ->
  let q := SF2Prim (S754_finite false m e) in
  (q =? 0)%float = false /\ (q * q =? 0)%float = false.
Proof.
  intros Hm He q.
  assert (Hq : Prim2SF q = S754_finite false m e)
    by (apply Prim2SF_SF2Prim, valid_normal; [exact Hm | lia]).
  split; [exact (eqb_zero_finite q _ _ _ Hq)|].
  pose proof (FloatAxioms.mul_spec q q) as Hmul. rewrite Hq in Hmul.
  unfold SF64mul, SFmul in Hmul. cbn [xorb] in Hmul.
  destruct (binary_round_aux_normal false (Z.pos (m * m)) (e + e) loc_Exact)
    as [Hr | (m' & e' & Hr & _)].
  - rewrite Pos2Z.inj_mul. change (2 ^ 52) with 4503599627370496 in *. nia.
  - lia.
  - rewrite Hr in Hmul. exact (eqb_zero_infinity _ _ Hmul).
  - rewrite Hr in Hmul. exact (eqb_zero_finite _ _ _ _ Hmul).
Qed.

Lemma float_of_int_raises (z : Z) (e : PyExc) :
  float_of_int z = Raise e -> e = OverflowError.
Proof.
  unfold float_of_int. destruct (binary_normalize prec emax z 0 false); congruence.
Qed.

(** On the ranges of the two widgets, by evaluation of every pair. *)
Lemma calculate_bmi_widget_ranges (height weight : Z) :
  100 <= height <= 250 -> 30 <= weight <= 200 ->
  exists b, calculate_bmi height weight = Ok (PyFloat b).
Proof.
  intros Hh Hw.
  assert (Hall : forallb (fun h => forallb (fun w => returns_float (calculate_bmi h w))
                                     (seqZ 30 171)) (seqZ 100 151) = true)
    by (vm_compute; reflexivity).
  rewrite forallb_forall in Hall.
  specialize (Hall height). rewrite forallb_forall in Hall.
  assert (Hr : returns_float (calculate_bmi height weight) = true).
  { apply Hall; apply list_elem_of_In, elem_of_seqZ; lia. }
  destruct (calculate_bmi height weight) as [[z | b] | e]; try discriminate. eauto.
Qed.

Lemma calculate_bmi_no_zero_division (height weight : Z) :
  calculate_bmi height weight <> Raise ZeroDivisionError.
Proof.
  unfold calculate_bmi.
  destruct (0 <? height) eqn:Hh; [apply Z.ltb_lt in Hh | discriminate].
  destruct (int_truediv_100 height Hh) as [-> | (m & e & -> & Hm & He)]; [discriminate|].
  destruct (square_nonzero m e Hm He) as [Hq Hqq].
  set (q := SF2Prim (S754_finite false m e)) in *.
  cbn [mbind result_bind]. unfold float_pow_2.
  assert (Hdiv : forall d, (d =? 0)%float = false ->
            (w ← float_of_int weight; r ← float_truediv w d; Ok (PyFloat r)) <>
            Raise ZeroDivisionError).
  { intros d Hd. destruct (float_of_int weight) as [w | ex] eqn:Hw; cbn [mbind result_bind].
    - unfold float_truediv. rewrite Hd. discriminate.
    - apply float_of_int_raises in Hw. subst ex. discriminate. }
  destruct (is_nan q); [apply Hdiv, Hq|].
  destruct (is_infinity q); [apply Hdiv; reflexivity|].
  destruct (is_infinity (q * q)); [discriminate | apply Hdiv, Hqq].
Qed.

(** [h / 100] for a positive int below [2 ^ 510]: a normal double of
    exponent between -59 and 458. *)
Lemma int_truediv_100_finite (h : Z) :
  0 < h < 2 ^ 510 ->
  exists m e,
    int_truediv h 100 = Ok (SF2Prim (S754_finite false m e)) /\
    2 ^ 52 <= Z.pos m < 2 ^ 53 /\ -59 <= e <= 458.
Proof.
  intros Hh. destruct h as [| p | p]; [lia | | lia].
  unfold int_truediv. cbn [Z.eqb Z.ltb Z.compare xorb Z.abs].
  change (Z.abs (Z.pos p)) with (Z.pos p). change (Z.abs 100) with 100.
  destruct (SFdiv_core_100_bound p) as (q & e0 & l & -> & Hq & He0).
  assert (Hdp : Zdigits2 (Z.pos p) <= 510) by (apply Zdigits2_le; lia).
  assert (Hdq : Zdigits2 q <= Zdigits2 (Z.pos p) - e0).
  { destruct q as [| q | q]; [| apply Zdigits2_le; lia |]; exfalso;
      assert (0 < 2 ^ 52) by (apply Z.pow_pos_nonneg; lia); lia. }
  destruct (binary_round_aux_finite false q e0 l) as (m & e & -> & Hm & He); [lia..|].
  exists m, e. split; [reflexivity|]. split; [exact Hm | lia].
Qed.

Lemma is_infinity_finite (x : float) (s : bool) (m : positive) (e : Z) :
  Prim2SF x = S754_finite s m e -> is_infinity x = false.
Proof.
  intros H. unfold is_infinity.
  rewrite FloatAxioms.eqb_spec, FloatAxioms.abs_spec, H. reflexivity.
Qed.

(** The square of a normal double of exponent at most 458 is finite. *)
Lemma square_finite (m : positive) (e : Z) :
  2 ^ 52 <= Z.pos m < 2 ^ 53 -> -59 <= e <= 458 ->
  let q := SF2Prim (S754_finite false m e) in
  is_infinity (q * q) = false.
Proof.
  intros Hm He q.
  assert (Hq : Prim2SF q = S754_finite false m e)
    by (apply Prim2SF_SF2Prim, valid_normal; [exact Hm | lia]).
  pose proof (FloatAxioms.mul_spec q q) as Hmul. rewrite Hq in Hmul.
  unfold SF64mul, SFmul in Hmul. cbn [xorb] in Hmul.
  destruct (binary_round_aux_finite false (Z.pos (m * m)) (e + e) loc_Exact)
    as (m' & e' & Hr & _).
  - rewrite Pos2Z.inj_mul. change (2 ^ 52) with 4503599627370496 in *. nia.
  - lia.
  - assert (Zdigits2 (Z.pos (m * m)) <= 106); [|lia].
    apply Zdigits2_le. rewrite Pos2Z.inj_mul.
    change (2 ^ 106) with (2 ^ 53 * 2 ^ 53).
    apply Z.mul_lt_mono_nonneg; lia.
  - rewrite Hr in Hmul. exact (is_infinity_finite _ _ _ _ Hmul).
Qed.

(** [float(z)] for an int of absolute value below [2 ^ 1023]. *)
Lemma float_of_int_finite (z : Z) :
  Z.abs z < 2 ^ 1023 -> exists w, float_of_int z = Ok w.
Proof.
  intros Hz. unfold float_of_int, binary_normalize.
  assert (Hcase : forall s (p : positive), Z.pos p < 2 ^ 1023 ->
            exists w, match binary_round prec emax s p 0 with
                      | S754_infinity _ => Raise OverflowError
                      | x => Ok (SF2Prim x)
                      end = Ok w).
  { intros s p Hp. unfold binary_round, shl_align.
    pose proof (Zdigits2_bounds p) as Hd.
    assert (Hd1023 : Zdigits2 (Z.pos p) <= 1023) by (apply Zdigits2_le; exact Hp).
    cbn [Zdigits2] in *.
    remember (Z.pos (digits2_pos p)) as d eqn:Hdd.
    assert (Hdpos : 0 < d) by (subst d; lia). clear Hdd.
    rewrite fexp_normal by lia. replace (d + 0 - 53 - 0) with (d - 53) by lia.
    assert (Hfin : forall mz ez, 2 ^ 52 <= Z.pos mz < 2 ^ (d - ez) -> -52 <= ez ->
              exists w, match binary_round_aux prec emax s (Z.pos mz) ez loc_Exact with
                        | S754_infinity _ => Raise OverflowError
                        | x => Ok (SF2Prim x)
                        end = Ok w).
    { intros mz ez Hmz Hez.
      assert (Zdigits2 (Z.pos mz) <= d - ez) by (apply Zdigits2_le; lia).
      destruct (binary_round_aux_finite s (Z.pos mz) ez loc_Exact) as (m & e & -> & _);
        [lia.. | eauto]. }
    destruct (d - 53) as [| k | k] eqn:Hk.
    - apply Hfin; [|lia]. replace (d - 1) with 52 in Hd by lia.
      replace (d - 0) with d by lia. lia.
    - apply Hfin; [|lia]. replace (d - 0) with d by lia.
      assert (2 ^ 52 <= 2 ^ (d - 1)) by (apply Z.pow_le_mono_r; lia). lia.
    - replace (d + 0 - 53) with (d - 53) by lia. rewrite Hk.
      apply Hfin; [|lia]. rewrite iter_xO_pow.
      assert (Hpow : 0 < 2 ^ Z.pos k) by (apply Z.pow_pos_nonneg; lia).
      split.
      + replace 52 with (d - 1 + Z.pos k) by lia. rewrite Z.pow_add_r by lia.
        apply Z.mul_le_mono_nonneg_r; lia.
      + replace (d - Z.neg k) with (d + Z.pos k) by lia. rewrite Z.pow_add_r by lia.
        apply Z.mul_lt_mono_pos_r; lia. }
  destruct z as [| p | p].
  - eexists. reflexivity.
  - apply Hcase. exact Hz.
  - apply Hcase. exact Hz.
Qed.

(** The only exception [calculate_bmi] raises is [OverflowError]. *)
Lemma calculate_bmi_raises (height weight : Z) (ex : PyExc) :
  calculate_bmi height weight = Raise ex -> ex = OverflowError.
Proof.
  unfold calculate_bmi.
  destruct (0 <? height) eqn:Hh; [apply Z.ltb_lt in Hh | discriminate].
  destruct (int_truediv_100 height Hh) as [-> | (m & e & -> & Hm & He)];
    [intros H; cbn in H; congruence|].
  destruct (square_nonzero m e Hm He) as [Hq Hqq].
  set (q := SF2Prim (S754_finite false m e)) in *.
  cbn [mbind result_bind]. unfold float_pow_2.
  assert (Hdiv : forall d, (d =? 0)%float = false ->
            (w ← float_of_int weight; r ← float_truediv w d; Ok (PyFloat r)) = Raise ex ->
            ex = OverflowError).
  { intros d Hd. destruct (float_of_int weight) as [w | ex'] eqn:Hw; cbn [mbind result_bind].
    - unfold float_truediv. rewrite Hd. discriminate.
    - apply float_of_int_raises in Hw. congruence. }
  destruct (is_nan q); [apply Hdiv, Hq|].
  destruct (is_infinity q); [apply Hdiv; reflexivity|].
  destruct (is_infinity (q * q)); [intros H; cbn in H; congruence | apply Hdiv, Hqq].
Qed.

(** Where both ints are well inside the range of a double the BMI is
    computed. *)
Lemma calculate_bmi_returns (height weight : Z) :
  0 < height < 2 ^ 510 -> Z.abs weight < 2 ^ 1023 ->
  exists b, calculate_bmi height weight = Ok (PyFloat b).
Proof.
  intros Hh Hw. unfold calculate_bmi. rewrite (proj2 (Z.ltb_lt 0 height)) by lia.
  destruct (int_truediv_100_finite height Hh) as (m & e & -> & Hm & He).
  destruct (square_nonzero m e Hm) as [Hq Hqq]; [lia|].
  pose proof (square_finite m e Hm He) as Hfin.
  set (q := SF2Prim (S754_finite false m e)) in *.
  destruct (float_of_int_finite weight Hw) as [w Hwf].
  cbn [mbind result_bind]. unfold float_pow_2.
  assert (Hdiv : forall d, (d =? 0)%float = false ->
            exists b, (w ← float_of_int weight; r ← float_truediv w d; Ok (PyFloat r)) =
                        Ok (PyFloat b)).
  { intros d Hd. rewrite Hwf. cbn [mbind result_bind]. unfold float_truediv. rewrite Hd.
    eexists. reflexivity. }
  destruct (is_nan q); [apply Hdiv, Hq|].
  destruct (is_infinity q); [apply Hdiv; reflexivity|].
  cbv zeta. rewrite Hfin. apply Hdiv, Hqq.
Qed.

(** An int too large for a double: the computation raises. *)
Lemma calculate_bmi_overflows : calculate_bmi (10 ^ 400) 80 = Raise OverflowError.
Proof. vm_compute. reflexivity. Qed.

(** C10, as the code has it: when the height is not strictly positive
    [calculate_bmi] returns 0 without dividing; for every int height and
    weight the division is never performed with a zero divisor (no
    [ZeroDivisionError]); the computation returns a float whenever
    [0 < height < 2 ^ 510] and [|weight| < 2 ^ 1023], so on the ranges of
    the two widgets; and all it can raise beyond is [OverflowError]. *)
Theorem calculate_bmi_guarded (height weight : Z) :
  (height <= 0 -> calculate_bmi height weight = Ok (PyInt 0)) /\
  calculate_bmi height weight <> Raise ZeroDivisionError /\
  (forall e, calculate_bmi height weight = Raise e -> e = OverflowError) /\
  (0 < height < 2 ^ 510 -> Z.abs weight < 2 ^ 1023 ->
   exists b, calculate_bmi height weight = Ok (PyFloat b)).
Proof.
  split; [|split; [|split]].
  - intros Hh. unfold calculate_bmi. rewrite (proj2 (Z.ltb_ge 0 height)) by lia. reflexivity.
  - apply calculate_bmi_no_zero_division.
  - apply calculate_bmi_raises.
  - apply calculate_bmi_returns.
Qed.

Lemma calculate_bmi_guarded_witness : exists b, calculate_bmi 170 65 = Ok (PyFloat b).
Proof.
  apply (calculate_bmi_guarded 170 65); [split; [lia | reflexivity] | reflexivity].
Defined.

(** ** The ranges of the BMI categories *)

Lemma SFcompare_refl (x : spec_float) : x <> S754_nan -> SFcompare x x = Some Eq.
Proof.
  destruct x as [s | s | | s m e]; try (destruct s; reflexivity); [congruence|].
  intros _. unfold SFcompare. rewrite Z.compare_refl, Pos.compare_cont_refl.
  destruct s; reflexivity.
Qed.

Lemma is_nan_spec (b : float) : is_nan b = true -> Prim2SF b = S754_nan.
Proof.
  unfold is_nan. rewrite FloatAxioms.eqb_spec. unfold SFeqb.
  destruct (Prim2SF b) as [s | s | | s m e] eqn:Hb; try reflexivity;
    rewrite SFcompare_refl by discriminate; discriminate.
Qed.

(** The mantissa of a double has at most 53 bits. *)
Lemma Prim2SF_mantissa (b : float) (s : bool) (m : positive) (e : Z) :
  Prim2SF b = S754_finite s m e -> Z.pos m < 2 ^ 53.
Proof.
  intros Hb. pose proof (Prim2SF_valid b) as Hv. rewrite Hb in Hv.
  unfold SpecFloat.valid_binary, bounded, canonical_mantissa in Hv.
  apply andb_prop in Hv as [Hc _]. apply Z.eqb_eq in Hc.
  unfold fexp, SpecFloat.emin, prec, emax in Hc.
  pose proof (Zdigits2_bounds m) as [_ Hm].
  eapply Z.lt_le_trans; [exact Hm|]. apply Z.pow_le_mono_r; lia.
Qed.

(** A double at or above a threshold of exponent -48 is not below a
    threshold of the same exponent that is no larger. *)
Lemma float_ge_not_lt (t t' b : float) (mt mt' : positive) :
  Prim2SF t = S754_finite false mt (-48) ->
  Prim2SF t' = S754_finite false mt' (-48) ->
  Z.pos mt' <= Z.pos mt ->
  (t <=? b)%float = true -> (b <? t')%float = false.
Proof.
  intros Ht Ht' Hm. rewrite FloatAxioms.leb_spec, FloatAxioms.ltb_spec, Ht, Ht'.
  unfold SFleb, SFltb.
  destruct (Prim2SF b) as [s | [] | | [] m e]; try discriminate; try reflexivity.
  rewrite !SFcompare_pos_finite.
  destruct (Z.compare_spec (-48) e) as [He | He | He]; try discriminate.
  - subst e. rewrite Z.compare_refl.
    destruct (Z.compare_spec (Z.pos mt) (Z.pos m)); try discriminate;
      destruct (Z.compare_spec (Z.pos m) (Z.pos mt')); try reflexivity; lia.
  - rewrite (proj2 (Z.compare_gt_iff e (-48))) by lia. reflexivity.
Qed.

(** A double that is at least the int 25 is not below a threshold of
    exponent -48 whose mantissa is below [25 * 2^48]. *)
Lemma float_ge_25_not_lt (t b : float) (mt : positive) :
  Prim2SF t = S754_finite false mt (-48) ->
  Z.pos mt < 25 * 2 ^ 48 ->
  num_leb (PyInt 25) (PyFloat b) = true -> (b <? t)%float = false.
Proof.
  intros Ht Hm. cbn [num_leb]. unfold int_float_compare.
  rewrite FloatAxioms.ltb_spec, Ht. unfold SFltb.
  destruct (Prim2SF b) as [s | [] | | s m e] eqn:Hb; try discriminate; try reflexivity.
  pose proof (Prim2SF_mantissa b s m e Hb) as Hm53.
  change (2 ^ 53) with 9007199254740992 in Hm53.
  change (2 ^ 48) with 281474976710656 in Hm.
  destruct (0 <=? e) eqn:He.
  - apply Z.leb_le in He.
    destruct s; [intros H; exfalso; revert H|intros _].
    + assert (Z.neg m * 2 ^ e < 25) by (pose proof (Z.pow_pos_nonneg 2 e); nia).
      destruct (Z.compare_spec 25 (Z.neg m * 2 ^ e)); try discriminate; lia.
    + rewrite SFcompare_pos_finite.
      rewrite (proj2 (Z.compare_gt_iff e (-48))) by lia. reflexivity.
  - apply Z.leb_gt in He.
    assert (Hp : 0 < 2 ^ (- e)) by (apply Z.pow_pos_nonneg; lia).
    destruct s; [intros H; exfalso; revert H|intros H].
    + destruct (Z.compare_spec (25 * 2 ^ (- e)) (Z.neg m)); try discriminate; lia.
    + assert (Hge : 25 * 2 ^ (- e) <= Z.pos m)
        by (destruct (Z.compare_spec (25 * 2 ^ (- e)) (Z.pos m)); try discriminate; lia).
      rewrite SFcompare_pos_finite.
      destruct (Z.compare_spec e (-48)) as [-> | Hlt | Hgt]; [| exfalso | reflexivity].
      * change (2 ^ (- -48)) with 281474976710656 in Hge.
        destruct (Z.compare_spec (Z.pos m) (Z.pos mt)); try reflexivity; lia.
      * assert (2 ^ 49 <= 2 ^ (- e)) by (apply Z.pow_le_mono_r; lia).
        change (2 ^ 49) with 562949953421312 in *. lia.
Qed.

Lemma ge_18_5_not_lt (bmi : PyNum) :
  num_leb (PyFloat 18.5) bmi = true -> num_ltb bmi (PyFloat 18.5) = false.
Proof.
  destruct bmi as [z | b]; cbn [num_leb num_ltb].
  - destruct (int_float_compare z 18.5) as [[]|]; congruence.
  - apply (float_ge_not_lt 18.5 18.5 b _ _ Prim2SF_18_5 Prim2SF_18_5). lia.
Qed.

Lemma ge_25_not_lt (bmi : PyNum) :
  num_leb (PyInt 25) bmi = true ->
  num_ltb bmi (PyFloat 18.5) = false /\ num_ltb bmi (PyFloat 24.9) = false.
Proof.
  destruct bmi as [z | b].
  - cbn [num_leb num_ltb]. unfold int_float_compare.
    rewrite Prim2SF_18_5, Prim2SF_24_9. change (0 <=? -48) with false.
    change (2 ^ (- -48)) with 281474976710656. cbv iota. intros H%Z.leb_le.
    destruct (Z.compare_spec (z * 281474976710656) 5207287069147136),
      (Z.compare_spec (z * 281474976710656) 7008726920095334); try lia; split; reflexivity.
  - intros H. split.
    + apply (float_ge_25_not_lt 18.5 b _ Prim2SF_18_5); [reflexivity | exact H].
    + apply (float_ge_25_not_lt 24.9 b _ Prim2SF_24_9); [reflexivity | exact H].
Qed.

(** X1. Each label is returned on exactly the range its branch tests: no
    earlier branch takes a value of a later range. *)
Theorem bmi_category_ranges (bmi : PyNum) :
  (get_bmi_category bmi = "Underweight" <-> num_ltb bmi (PyFloat 18.5) = true) /\
  (get_bmi_category bmi = "Normal weight" <->
     num_leb (PyFloat 18.5) bmi = true /\ num_ltb bmi (PyFloat 24.9) = true) /\
  (get_bmi_category bmi = "Overweight" <->
     num_leb (PyInt 25) bmi = true /\ num_ltb bmi (PyFloat 29.9) = true).
Proof.
  pose proof (ge_18_5_not_lt bmi) as H1. pose proof (ge_25_not_lt bmi) as H2.
  unfold get_bmi_category.
  destruct (num_ltb bmi (PyFloat 18.5)) eqn:Ha.
  { repeat split; try discriminate; try reflexivity.
    - intros [Hb _]. specialize (H1 Hb). discriminate.
    - intros [Hb _]. destruct (H2 Hb). discriminate. }
  destruct (num_leb (PyFloat 18.5) bmi) eqn:Hb, (num_ltb bmi (PyFloat 24.9)) eqn:Hc;
    cbn [andb];
    try (repeat split; try discriminate; try reflexivity; try tauto;
         intros [Hd _]; destruct (H2 Hd); discriminate).
  all: destruct (num_leb (PyInt 25) bmi) eqn:Hd, (num_ltb bmi (PyFloat 29.9)) eqn:He;
    cbn [andb]; repeat split; try discriminate; try reflexivity; try tauto;
    intros [? ?]; discriminate.
Qed.

Lemma ge_29_9_not_lt (bmi : PyNum) :
  num_leb (PyFloat 29.9) bmi = true ->
  num_ltb bmi (PyFloat 18.5) = false /\ num_ltb bmi (PyFloat 24.9) = false /\
  num_ltb bmi (PyFloat 29.9) = false.
Proof.
  destruct bmi as [z | b]; cbn [num_leb num_ltb].
  - unfold int_float_compare. rewrite Prim2SF_18_5, Prim2SF_24_9, Prim2SF_29_9.
    change (0 <=? -48) with false. change (2 ^ (- -48)) with 281474976710656. cbv iota.
    intros H.
    destruct (Z.compare_spec (z * 281474976710656) 8416101803648614); try discriminate;
      destruct (Z.compare_spec (z * 281474976710656) 5207287069147136),
        (Z.compare_spec (z * 281474976710656) 7008726920095334); try lia; auto.
  - intros H. repeat split.
    + apply (float_ge_not_lt 29.9 18.5 b _ _ Prim2SF_29_9 Prim2SF_18_5); [lia | exact H].
    + apply (float_ge_not_lt 29.9 24.9 b _ _ Prim2SF_29_9 Prim2SF_24_9); [lia | exact H].
    + apply (float_ge_not_lt 29.9 29.9 b _ _ Prim2SF_29_9 Prim2SF_29_9); [lia | exact H].
Qed.

(** X2. Everything from 29.9 upwards is "Obese", and so is a NaN: every
    comparison with it is false, so it falls to the final branch. *)
Theorem bmi_obese_range (bmi : PyNum) :
  num_leb (PyFloat 29.9) bmi = true \/ (exists b, bmi = PyFloat b /\ is_nan b = true) ->
  get_bmi_category bmi = "Obese".
Proof.
  unfold get_bmi_category. intros [H | (b & -> & Hb)].
  - destruct (ge_29_9_not_lt bmi H) as (-> & -> & ->). rewrite !andb_false_r. reflexivity.
  - apply is_nan_spec in Hb. cbn [num_leb num_ltb]. unfold int_float_compare.
    rewrite !FloatAxioms.ltb_spec, FloatAxioms.leb_spec, Hb. reflexivity.
Qed.

Lemma bmi_obese_range_witness : get_bmi_category (PyFloat 35) = "Obese".
Proof. apply bmi_obese_range. left. reflexivity. Defined.

(** ** The sign of the BMI *)

Lemma shr_nonneg (mrs : shr_record) (e n : Z) :
  0 <= shr_m mrs -> 0 <= shr_m (fst (shr mrs e n)).
Proof.
  intros Hm. destruct n as [| p | p]; simpl; [exact Hm | | exact Hm].
  rewrite iter_shr_1_m by exact Hm. apply Z.div_pos; [exact Hm|].
  apply Z.pow_pos_nonneg; lia.
Qed.

(** Rounding a non-negative mantissa gives a zero, a finite double or an
    infinity of the given sign, never a NaN. *)
Lemma binary_round_aux_sign (s : bool) (mx ex : Z) (lx : location) :
  0 <= mx -> sign_or_zero s (binary_round_aux prec emax s mx ex lx).
Proof.
  intros Hmx. unfold binary_round_aux, shr_fexp.
  pose proof (shr_nonneg (shr_record_of_loc mx lx) ex
                (fexp prec emax (Zdigits2 mx + ex) - ex)) as H1.
  rewrite shr_record_of_loc_m in H1. specialize (H1 Hmx).
  destruct (shr (shr_record_of_loc mx lx) ex _) as [mrs' e']. cbn [fst] in H1.
  pose proof (round_nearest_even_bounds (shr_m mrs') (loc_of_shr_record mrs')) as Hr.
  set (m2 := round_nearest_even (shr_m mrs') (loc_of_shr_record mrs')) in *.
  pose proof (shr_nonneg (shr_record_of_loc m2 loc_Exact) e'
                (fexp prec emax (Zdigits2 m2 + e') - e')) as H2.
  rewrite shr_record_of_loc_m in H2. specialize (H2 ltac:(lia)).
  destruct (shr (shr_record_of_loc m2 loc_Exact) e' _) as [mrs'' e'']. cbn [fst] in H2.
  destruct (shr_m mrs'') as [| m | m]; [left; reflexivity | | lia].
  destruct (e'' <=? emax - prec); [right; right; eauto | right; left; reflexivity].
Qed.

(** [float(z)] for a positive int: a normal double, unless it overflows. *)
Lemma float_of_int_pos (p : positive) :
  float_of_int (Z.pos p) = Raise OverflowError \/
  exists m e,
    float_of_int (Z.pos p) = Ok (SF2Prim (S754_finite false m e)) /\
    2 ^ 52 <= Z.pos m < 2 ^ 53 /\ -52 <= e <= 971.
Proof.
  unfold float_of_int, binary_normalize, binary_round, shl_align.
  pose proof (Zdigits2_bounds p) as Hd.
  remember (Z.pos (digits2_pos p)) as d eqn:Hdd.
  assert (Hdpos : 0 < d) by (subst d; lia). clear Hdd.
  rewrite fexp_normal by lia. replace (d + 0 - 53 - 0) with (d - 53) by lia.
  assert (Hcase : forall mz ez, 2 ^ 52 <= Z.pos mz -> -52 <= ez ->
            match binary_round_aux prec emax false (Z.pos mz) ez loc_Exact with
            | S754_infinity _ => Raise OverflowError
            | x => Ok (SF2Prim x)
            end = Raise OverflowError \/
            exists m e,
              match binary_round_aux prec emax false (Z.pos mz) ez loc_Exact with
              | S754_infinity _ => Raise OverflowError
              | x => Ok (SF2Prim x)
              end = Ok (SF2Prim (S754_finite false m e)) /\
              2 ^ 52 <= Z.pos m < 2 ^ 53 /\ -52 <= e <= 971).
  { intros mz ez Hmz Hez.
    destruct (binary_round_aux_normal false (Z.pos mz) ez loc_Exact Hmz)
      as [-> | (m & e & -> & Hm & He)]; [lia | left; reflexivity | right].
    exists m, e. split; [reflexivity|]. split; [exact Hm | lia]. }
  destruct (d - 53) as [| k | k] eqn:Hk.
  - apply Hcase; [|lia]. replace (d - 1) with 52 in Hd by lia. lia.
  - apply Hcase; [|lia].
    assert (2 ^ 52 <= 2 ^ (d - 1)) by (apply Z.pow_le_mono_r; lia). lia.
  - replace (d + 0 - 53) with (d - 53) by lia. rewrite Hk.
    apply Hcase; [|lia]. rewrite iter_xO_pow.
    replace 52 with (d - 1 + Z.pos k) by lia. rewrite Z.pow_add_r by lia.
    apply Z.mul_le_mono_nonneg_r; [apply Z.pow_nonneg; lia | lia].
Qed.

Lemma new_quotient_nonneg (m1 m2 : positive) (e1 e2 : Z) :
  exists q e l, SFdiv_core_binary prec emax (Z.pos m1) e1 (Z.pos m2) e2 = (q, e, l) /\ 0 <= q.
Proof.
  unfold SFdiv_core_binary.
  match goal with |- context [Z.div_eucl ?a ?b] =>
    assert (Ha : 0 <= a);
    [ | destruct (Z.div_eucl a b) as [q r] eqn:Hq;
        exists q; do 2 eexists; split; [reflexivity|];
        assert (q = a / b) as -> by (unfold Z.div; rewrite Hq; reflexivity);
        apply Z.div_pos; lia ]
  end.
  match goal with |- 0 <= match ?s with _ => _ end => destruct s end; try lia.
  apply Z.shiftl_nonneg. lia.
Qed.

(** The quotient of a non-negative finite double by a positive double, or
    by [+inf], is a non-negative double or [+inf], never a NaN. *)
Lemma SFdiv_nonneg (x y : spec_float) :
  (x = S754_zero false \/ exists m e, x = S754_finite false m e) ->
  (y = S754_infinity false \/ exists m e, y = S754_finite false m e) ->
  sign_or_zero false (SF64div x y).
Proof.
  intros [-> | (mx & ex & ->)] [-> | (my & ey & ->)]; unfold SF64div, SFdiv;
    try (left; reflexivity).
  destruct (new_quotient_nonneg mx my ex ey) as (q & e & l & -> & Hq).
  apply binary_round_aux_sign, Hq.
Qed.

Lemma leb_zero_nonneg (r : float) :
  sign_or_zero false (Prim2SF r) -> (0 <=? r)%float = true.
Proof.
  intros H. rewrite FloatAxioms.leb_spec.
  destruct H as [-> | [-> | (m & e & ->)]]; reflexivity.
Qed.

(** X3. For a positive height and a non-negative weight the BMI is a
    non-negative float (so not a NaN), unless an int is too large for a
    double. *)
Theorem calculate_bmi_nonneg (height weight : Z) :
  0 < height -> 0 <= weight ->
  calculate_bmi height weight = Raise OverflowError \/
  exists r, calculate_bmi height weight = Ok (PyFloat r) /\ (0 <=? r)%float = true.
Proof.
  intros Hh Hw. unfold calculate_bmi. rewrite (proj2 (Z.ltb_lt 0 height) Hh).
  destruct (int_truediv_100 height Hh) as [-> | (m & e & -> & Hm & He)]; [left; reflexivity|].
  destruct (square_nonzero m e Hm He) as [Hq0 Hqq0].
  assert (Hq : Prim2SF (SF2Prim (S754_finite false m e)) = S754_finite false m e)
    by (apply Prim2SF_SF2Prim, valid_normal; [exact Hm | lia]).
  set (q := SF2Prim (S754_finite false m e)) in *.
  cbn [mbind result_bind]. unfold float_pow_2.
  assert (Hdiv : forall d,
            (d =? 0)%float = false ->
            (Prim2SF d = S754_infinity false \/ exists m' e', Prim2SF d = S754_finite false m' e') ->
            (w ← float_of_int weight; r ← float_truediv w d; Ok (PyFloat r)) =
              Raise OverflowError \/
            exists r, (w ← float_of_int weight; r ← float_truediv w d; Ok (PyFloat r)) =
              Ok (PyFloat r) /\ (0 <=? r)%float = true).
  { intros d Hd0 Hd.
    assert (Hwf : float_of_int weight = Raise OverflowError \/
              exists w, float_of_int weight = Ok w /\
                (Prim2SF w = S754_zero false \/ exists m' e', Prim2SF w = S754_finite false m' e')).
    { destruct weight as [| p | p]; [| | lia].
      - right. exists 0%float. split; [reflexivity | left; reflexivity].
      - destruct (float_of_int_pos p) as [-> | (mw & ew & -> & Hmw & Hew)]; [left; reflexivity|].
        right. eexists. split; [reflexivity|]. right. exists mw, ew.
        apply Prim2SF_SF2Prim, valid_normal; [exact Hmw | lia]. }
    destruct Hwf as [-> | (w & -> & Hwc)]; [left; reflexivity | right].
    cbn [mbind result_bind]. unfold float_truediv. rewrite Hd0.
    eexists. split; [reflexivity|].
    apply leb_zero_nonneg. rewrite FloatAxioms.div_spec.
    apply SFdiv_nonneg; assumption. }
  destruct (is_nan q); [apply Hdiv; [exact Hq0 | right; eauto]|].
  destruct (is_infinity q); [apply Hdiv; [reflexivity | left; reflexivity]|].
  destruct (is_infinity (q * q)); [left; reflexivity|].
  apply Hdiv; [exact Hqq0|].
  pose proof (FloatAxioms.mul_spec q q) as Hmul. rewrite Hq in Hmul.
  unfold SF64mul, SFmul in Hmul. cbn [xorb] in Hmul.
  destruct (binary_round_aux_normal false (Z.pos (m * m)) (e + e) loc_Exact)
    as [Hr | (m' & e' & Hr & _)].
  - rewrite Pos2Z.inj_mul. change (2 ^ 52) with 4503599627370496 in *. nia.
  - lia.
  - left. rewrite Hmul. exact Hr.
  - right. exists m', e'. rewrite Hmul. exact Hr.
Qed.

Lemma calculate_bmi_nonneg_witness :
  calculate_bmi 180 80 = Raise OverflowError \/
  exists r, calculate_bmi 180 80 = Ok (PyFloat r) /\ (0 <=? r)%float = true.
Proof. apply calculate_bmi_nonneg; lia. Defined.

(** ** The profile tab *)

Lemma calculate_bmi_180_80 : calculate_bmi 180 80 = Ok (PyFloat 24.691358024691358).
Proof. vm_compute. reflexivity. Qed.

Lemma format_bmi_180_80 : num_format_2f (PyFloat 24.691358024691358) = Ok "24.69".
Proof. vm_compute. reflexivity. Qed.

Lemma category_bmi_180_80 : get_bmi_category (PyFloat 24.691358024691358) = "Normal weight".
Proof. vm_compute. reflexivity. Qed.

Section ProfileTab.
Context `{L : Libs}.

(** End to end: updating the profile with height 180 and weight 80 stores
    the BMI in the session and shows "24.69" and "Normal weight". *)
Lemma profile_tab_180_80 (i : Inputs) (w : World) :
  clicked i = UpdateProfile -> in_height i = 180 -> in_weight i = 80 ->
  profile_tab i w =
    (Ok tt,
     mkWorld (cache w)
       (Some (mkProfile (in_gender i) 180 80 (in_age i) (PyFloat 24.691358024691358)))
       (files w) (ambient_rng w)
       (page w ++
        [StHeader "User Profile"; StSuccess "Profile Updated!";
         StMetric "Current BMI" "24.69"; StInfo "Category: Normal weight"])).
Proof.
  intros Hc Hh Hw. unfold profile_tab. rewrite Hc, Hh, Hw, calculate_bmi_180_80.
  unfold mbind, app_bind, lift, put_profile, get_profile, st.
  cbn [fst snd session_profile cache files ambient_rng page bmi].
  rewrite format_bmi_180_80, category_bmi_180_80.
  cbn [fst snd session_profile cache files ambient_rng page bmi].
  rewrite <- !app_assoc. reflexivity.
Qed.

(** On the widgets' ranges an update of the profile never raises, and the
    stored BMI is a float. *)
Lemma profile_tab_updates (i : Inputs) (w : World) :
  widget_ranges i -> clicked i = UpdateProfile ->
  exists b w',
    profile_tab i w = (Ok tt, w') /\
    session_profile w' =
      Some (mkProfile (in_gender i) (in_height i) (in_weight i) (in_age i) (PyFloat b)).
Proof.
  intros (_ & Hh & Hw & _) Hc.
  destruct (calculate_bmi_widget_ranges _ _ Hh Hw) as [b Hb].
  exists b. unfold profile_tab. rewrite Hc, Hb.
  unfold mbind, app_bind, lift, put_profile, get_profile, st.
  cbn [fst snd session_profile cache files ambient_rng page bmi num_format_2f].
  eexists. split; reflexivity.
Qed.

End ProfileTab.

(** ** What a run may change *)

Section Frames.
Context `{L : Libs}.

#[global] Instance keeps_preorder f : PreOrder (keeps f).
Proof.
  split.
  - intros w. repeat split; auto.
  - intros w1 w2 w3 (Hf & Hc & Hp) (Hf' & Hc' & Hp'). repeat split.
    + intros g Hg. rewrite Hf', Hf; auto.
    + auto.
    + auto.
Qed.

Lemma keeps_weaken f w w' : keeps None w w' -> keeps f w w'.
Proof.
  intros (Hf & Hc & Hp). repeat split; auto.
Qed.

Lemma frames_bind R `{!PreOrder R} {A B} (m : App A) (k : A -> App B) :
  frames R m -> (forall a, frames R (k a)) -> frames R (m ≫= k).
Proof.
  intros Hm Hk w. specialize (Hm w). unfold mbind, app_bind.
  destruct (m w) as [[a | e] w1]; simpl in *; [|exact Hm].
  etransitivity; [exact Hm | apply Hk].
Qed.

Lemma frames_weaken f {A} (m : App A) : frames (keeps None) m -> frames (keeps f) m.
Proof. intros H w. apply keeps_weaken, H. Qed.

Lemma frames_ret f {A} (a : A) : frames (keeps f) (mret a).
Proof. intros w. reflexivity. Qed.

Lemma frames_lift f {A} (r : result A) : frames (keeps f) (lift r).
Proof. intros w. reflexivity. Qed.

Lemma frames_get_files f : frames (keeps f) get_files.
Proof. intros w. reflexivity. Qed.

Lemma frames_get_profile f : frames (keeps f) get_profile.
Proof. intros w. reflexivity. Qed.

Lemma frames_get_cache f : frames (keeps f) get_cache.
Proof. intros w. reflexivity. Qed.

Lemma frames_st f u : frames (keeps f) (st u).
Proof. intros w. repeat split; auto. Qed.

Lemma frames_put_profile f p : frames (keeps f) (put_profile p).
Proof. intros w. repeat split; simpl; eauto. Qed.

Lemma frames_seeded f {A} seed (g : Rng -> result A * Rng) :
  frames (keeps f) (with_random_state (Some seed) g).
Proof. intros w. reflexivity. Qed.

Lemma frames_load_data f file_name cols :
  frames (keeps f) (app_load_data file_name cols).
Proof. intros w. reflexivity. Qed.

Lemma frames_read_csv f file_name : frames (keeps f) (app_read_csv file_name).
Proof. intros w. reflexivity. Qed.

Lemma frames_save_data file_name data :
  frames (keeps (Some file_name)) (app_save_data file_name data).
Proof.
  intros w. repeat split; auto. intros g Hg. simpl.
  unfold save_data, to_csv. apply lookup_insert_ne. congruence.
Qed.

End Frames.

Create HintDb frames.
#[local] Hint Resolve frames_ret frames_lift frames_get_files frames_get_profile
  frames_get_cache frames_st frames_put_profile frames_seeded frames_load_data
  frames_read_csv frames_save_data : frames.

(** Splits a sequence of steps into its steps and closes the ones that are
    primitive. *)
Ltac frames_steps :=
  repeat first
    [ solve [eauto with frames nocore]
    | apply frames_bind; [apply _ | | intros ?]
    | progress cbv beta zeta
    | match goal with
      | |- frames _ (match ?x with _ => _ end) => destruct x
      | |- frames _ (if ?x then _ else _) => destruct x
      end ].

Section FramesOfTheScript.
Context `{L : Libs}.

Lemma frames_prepare_model f : frames (keeps f) prepare_model.
Proof. unfold prepare_model, train_test_split, RandomForestRegressor_fit. frames_steps. Qed.

Lemma frames_profile_tab f i : frames (keeps f) (profile_tab i).
Proof. unfold profile_tab. frames_steps. Qed.

Lemma frames_calorie_chart f : frames (keeps f) calorie_chart.
Proof. unfold calorie_chart. frames_steps. Qed.

Lemma frames_exercise_chart f : frames (keeps f) exercise_chart.
Proof. unfold exercise_chart. frames_steps. Qed.

Lemma frames_water_chart f : frames (keeps f) water_chart.
Proof. unfold water_chart. frames_steps. Qed.

Lemma frames_sleep_chart f : frames (keeps f) sleep_chart.
Proof. unfold sleep_chart. frames_steps. Qed.

Lemma frames_visualize_tab f : frames (keeps f) visualize_tab.
Proof.
  unfold visualize_tab.
  pose proof (frames_calorie_chart f). pose proof (frames_exercise_chart f).
  pose proof (frames_water_chart f). pose proof (frames_sleep_chart f).
  repeat first
    [ assumption | apply frames_st | apply frames_bind; [apply _ | | intros ?] ].
Qed.

(** A tracking form writes its own file, and only when its button was
    pressed. *)
Lemma frames_calorie_tab model cols profile i :
  frames (keeps (match clicked i with LogCaloriesBurned => Some calorie_file | _ => None end))
    (calorie_tab model cols profile i).
Proof. unfold calorie_tab. frames_steps. Qed.

Lemma frames_exercise_tab i :
  frames (keeps (match clicked i with LogExercise => Some exercise_file | _ => None end))
    (exercise_tab i).
Proof. unfold exercise_tab. frames_steps. Qed.

Lemma frames_water_tab i :
  frames (keeps (match clicked i with LogWaterIntake => Some water_file | _ => None end))
    (water_tab i).
Proof. unfold water_tab. frames_steps. Qed.

Lemma frames_sleep_tab i :
  frames (keeps (match clicked i with LogSleepData => Some sleep_file | _ => None end))
    (sleep_tab i).
Proof. unfold sleep_tab. frames_steps. Qed.

Lemma frames_tracking_tab model cols i :
  frames (keeps (written_file (clicked i))) (tracking_tab model cols i).
Proof.
  unfold tracking_tab.
  apply frames_bind; [apply _ | apply frames_get_profile | intros [profile|]];
    [|apply frames_ret].
  pose proof (frames_calorie_tab model cols profile i) as Hc.
  pose proof (frames_exercise_tab i) as He.
  pose proof (frames_water_tab i) as Hw.
  pose proof (frames_sleep_tab i) as Hs.
  destruct (clicked i); simpl in *;
    repeat first
      [ assumption
      | apply frames_weaken; assumption
      | apply frames_st
      | apply frames_bind; [apply _ | | intros ?] ].
Qed.

(** The cache is filled once: the first run that gets a model keeps it. *)
Lemma frames_cache_resource f : frames (keeps f) (cache_resource prepare_model).
Proof.
  intros w. unfold cache_resource, mbind, app_bind, get_cache.
  destruct (cache w) as [v|] eqn:Hc; [reflexivity|].
  pose proof (frames_prepare_model f w) as (Hf & _ & Hp).
  destruct (prepare_model w) as [[v|e] w1]; simpl in *; repeat split; auto; congruence.
Qed.

Lemma cache_resource_cached w v w' :
  cache_resource prepare_model w = (Ok v, w') -> cache w' = Some v.
Proof.
  unfold cache_resource, mbind, app_bind, get_cache.
  destruct (cache w) as [v0|] eqn:Hc.
  - intros [= <- <-]. exact Hc.
  - destruct (prepare_model w) as [[v1|e] w1]; simpl; [|discriminate].
    intros [= <- <-]. reflexivity.
Qed.

Lemma frames_script i : frames (keeps (written_file (clicked i))) (script i).
Proof.
  unfold script.
  apply frames_bind; [apply _ | apply frames_cache_resource | intros [model cols]].
  repeat first
    [ apply frames_st | apply frames_profile_tab | apply frames_tracking_tab
    | apply frames_visualize_tab | apply frames_bind; [apply _ | | intros ?] ].
Qed.

Lemma keeps_run i w : keeps (written_file (clicked i)) w (snd (run i w)).
Proof.
  unfold run.
  set (w0 := mkWorld _ _ _ _ _).
  pose proof (frames_script i w0) as (Hf & Hc & Hp). repeat split; auto.
Qed.

End FramesOfTheScript.

(** ** Runs that complete *)

Section Logging.
Context `{L : Libs}.

Lemma bind_Ok {A B} (m : App A) (k : A -> App B) w b w' :
  (m ≫= k) w = (Ok b, w') ->
  exists a w1, m w = (Ok a, w1) /\ k a w1 = (Ok b, w').
Proof.
  unfold mbind, app_bind. destruct (m w) as [[a | e] w1]; [eauto | discriminate].
Qed.

Lemma frames_eq R {A} (m : App A) w r w' : frames R m -> m w = (r, w') -> R w w'.
Proof. intros H Hm. specialize (H w). rewrite Hm in H. exact H. Qed.

(** What a form does when its button was pressed and nothing raises: it
    reads the whole history, puts the new record after it, and writes the
    file again. *)
Lemma calorie_tab_logs model cols profile i w w' :
  clicked i = LogCaloriesBurned ->
  calorie_tab model cols profile i w = (Ok tt, w') ->
  exists df p,
    load_data (files w) calorie_file calorie_columns = Ok df /\
    files w' !! calorie_file =
      Some (Csv (concat df (frame_of_record (new_row Calories i p)))).
Proof.
  unfold calorie_tab, app_load_data, app_save_data, mbind, app_bind, lift, get_files,
    put_files, st. simpl. intros ->.
  destruct (predict_0 _ _) as [p|]; [|discriminate]. simpl.
  destruct (load_data _ _ _) as [df|]; [|discriminate]. simpl.
  intros [= <-]. exists df, p. split; [reflexivity|]. simpl. apply lookup_insert_eq.
Qed.

Lemma exercise_tab_logs i w w' :
  clicked i = LogExercise ->
  exercise_tab i w = (Ok tt, w') ->
  exists df,
    load_data (files w) exercise_file exercise_columns = Ok df /\
    files w' !! exercise_file = Some (Csv (concat df (frame_of_record (exercise_new_row i)))).
Proof.
  unfold exercise_tab, app_load_data, app_save_data, mbind, app_bind, lift, get_files,
    put_files, st. simpl. intros ->.
  destruct (load_data _ _ _) as [df|]; [|discriminate]. simpl.
  intros [= <-]. exists df. split; [reflexivity|]. simpl. apply lookup_insert_eq.
Qed.

Lemma water_tab_logs i w w' :
  clicked i = LogWaterIntake ->
  water_tab i w = (Ok tt, w') ->
  exists df,
    load_data (files w) water_file water_columns = Ok df /\
    files w' !! water_file = Some (Csv (concat df (frame_of_record (water_new_row i)))).
Proof.
  unfold water_tab, app_load_data, app_save_data, mbind, app_bind, lift, get_files,
    put_files, st. simpl. intros ->.
  destruct (load_data _ _ _) as [df|]; [|discriminate]. simpl.
  intros [= <-]. exists df. split; [reflexivity|]. simpl. apply lookup_insert_eq.
Qed.

Lemma sleep_tab_logs i w w' :
  clicked i = LogSleepData ->
  sleep_tab i w = (Ok tt, w') ->
  exists df,
    load_data (files w) sleep_file sleep_columns = Ok df /\
    files w' !! sleep_file = Some (Csv (concat df (frame_of_record (sleep_new_row i)))).
Proof.
  unfold sleep_tab, app_load_data, app_save_data, mbind, app_bind, lift, get_files,
    put_files, st. simpl. intros ->.
  destruct (load_data _ _ _) as [df|]; [|discriminate]. simpl.
  intros [= <-]. exists df. split; [reflexivity|]. simpl. apply lookup_insert_eq.
Qed.

Lemma keeps_None_lookup w w' g : keeps None w w' -> files w' !! g = files w !! g.
Proof. intros (Hf & _). apply Hf. discriminate. Qed.

Lemma keeps_profile f w w' :
  keeps f w w' -> is_Some (session_profile w) -> is_Some (session_profile w').
Proof. intros (_ & _ & Hp). exact Hp. Qed.

Lemma load_data_lookup fs fs' file_name cols :
  fs' !! file_name = fs !! file_name ->
  load_data fs' file_name cols = load_data fs file_name cols.
Proof. unfold load_data, read_csv. intros ->. reflexivity. Qed.

(** A completed run whose button was the "log" button of category [c]
    leaves, in the file of [c], the history it found followed by the new
    record. *)
Lemma run_logs c i w w' :
  is_Some (session_profile w) ->
  clicked i = category_click c ->
  run i w = (Ok tt, w') ->
  exists df p,
    load_data (files w) (category_file c) (category_columns c) = Ok df /\
    files w' !! category_file c =
      Some (Csv (concat df (frame_of_record (new_row c i p)))) /\
    is_Some (session_profile w').
Proof.
  intros Hp Hc. unfold run.
  set (w0 := mkWorld _ _ _ _ _).
  assert (Hf0 : files w0 = files w) by reflexivity.
  assert (Hp0 : is_Some (session_profile w0)) by exact Hp.
  clearbody w0. rewrite <- Hf0. clear Hf0 Hp w. unfold script. intros H.
  apply bind_Ok in H as ([model cols] & wa & Ha & H).
  apply bind_Ok in H as ([] & wb & Hb & H).
  apply bind_Ok in H as ([] & wc & Hpt & H).
  apply bind_Ok in H as ([] & wd & Ht & H).
  apply (frames_eq _ _ _ _ _ (frames_cache_resource None)) in Ha.
  apply (frames_eq _ _ _ _ _ (frames_st None _)) in Hb.
  apply (frames_eq _ _ _ _ _ (frames_profile_tab None i)) in Hpt.
  apply (frames_eq _ _ _ _ _ (frames_visualize_tab None)) in H.
  assert (Hk : keeps None w0 wc) by (do 2 (etransitivity; [eassumption|]); assumption).
  clear Ha Hb Hpt wa wb.
  pose proof (keeps_profile _ _ _ Hk Hp0) as [profile Hprofile].
  unfold tracking_tab in Ht.
  apply bind_Ok in Ht as (o & we & Hg & Ht).
  unfold get_profile in Hg. injection Hg as <- <-. rewrite Hprofile in Ht.
  apply bind_Ok in Ht as ([] & w1 & H1 & Ht).
  apply bind_Ok in Ht as ([] & w2 & H2 & Ht).
  apply bind_Ok in Ht as ([] & w3 & H3 & Ht).
  apply bind_Ok in Ht as ([] & w4 & H4 & H5).
  apply (frames_eq _ _ _ _ _ (frames_st None _)) in H1.
  pose proof (frames_eq _ _ _ _ _ (frames_calorie_tab model cols profile i) H2) as K2.
  pose proof (frames_eq _ _ _ _ _ (frames_exercise_tab i) H3) as K3.
  pose proof (frames_eq _ _ _ _ _ (frames_water_tab i) H4) as K4.
  pose proof (frames_eq _ _ _ _ _ (frames_sleep_tab i) H5) as K5.
  assert (Hp' : is_Some (session_profile w')).
  { eapply keeps_profile; [exact H|]. eapply keeps_profile; [exact K5|].
    eapply keeps_profile; [exact K4|]. eapply keeps_profile; [exact K3|].
    eapply keeps_profile; [exact K2|]. eapply keeps_profile; [exact H1|].
    rewrite Hprofile. eauto. }
  destruct c; simpl in Hc; rewrite Hc in K2, K3, K4, K5; simpl.
  - destruct (calorie_tab_logs _ _ _ _ _ _ Hc H2) as (df & p & Hl & Hs).
    exists df, p. split; [|split; [|exact Hp']].
    + rewrite <- Hl. symmetry. apply load_data_lookup.
      rewrite (keeps_None_lookup _ _ _ H1). apply keeps_None_lookup, Hk.
    + rewrite (keeps_None_lookup _ _ _ H), (keeps_None_lookup _ _ _ K5),
        (keeps_None_lookup _ _ _ K4), (keeps_None_lookup _ _ _ K3). exact Hs.
  - destruct (exercise_tab_logs _ _ _ Hc H3) as (df & Hl & Hs).
    exists df, 0%float. split; [|split; [|exact Hp']].
    + rewrite <- Hl. symmetry. apply load_data_lookup.
      rewrite (keeps_None_lookup _ _ _ K2), (keeps_None_lookup _ _ _ H1).
      apply keeps_None_lookup, Hk.
    + rewrite (keeps_None_lookup _ _ _ H), (keeps_None_lookup _ _ _ K5),
        (keeps_None_lookup _ _ _ K4). exact Hs.
  - destruct (water_tab_logs _ _ _ Hc H4) as (df & Hl & Hs).
    exists df, 0%float. split; [|split; [|exact Hp']].
    + rewrite <- Hl. symmetry. apply load_data_lookup.
      rewrite (keeps_None_lookup _ _ _ K3), (keeps_None_lookup _ _ _ K2),
        (keeps_None_lookup _ _ _ H1). apply keeps_None_lookup, Hk.
    + rewrite (keeps_None_lookup _ _ _ H), (keeps_None_lookup _ _ _ K5). exact Hs.
  - destruct (sleep_tab_logs _ _ _ Hc H5) as (df & Hl & Hs).
    exists df, 0%float. split; [|split; [|exact Hp']].
    + rewrite <- Hl. symmetry. apply load_data_lookup.
      rewrite (keeps_None_lookup _ _ _ K4), (keeps_None_lookup _ _ _ K3),
        (keeps_None_lookup _ _ _ K2), (keeps_None_lookup _ _ _ H1).
      apply keeps_None_lookup, Hk.
    + rewrite (keeps_None_lookup _ _ _ H). exact Hs.
Qed.

End Logging.

(** ** The tabular store *)

(** C3: for every tracking category, loading when the category's file does
    not exist does not raise: it returns the table with the category's
    columns and no row. *)
Theorem load_missing_file (c : Category) (fs : gmap string FileContent) :
  fs !! category_file c = None ->
  exists df,
    load_data fs (category_file c) (category_columns c) = Ok df /\
    columns df = category_columns c /\ rows df = [] /\ empty df = true.
Proof.
  intros H. exists (mkDataFrame (category_columns c) []).
  unfold load_data, read_csv. rewrite H. repeat split; reflexivity.
Qed.

Lemma load_missing_file_witness :
  exists df,
    load_data demo_reference_files (category_file Water) (category_columns Water) = Ok df /\
    columns df = category_columns Water /\ rows df = [] /\ empty df = true.
Proof. apply (load_missing_file Water demo_reference_files). reflexivity. Defined.

Section Store.
Context `{L : Libs}.

(** C4: for every tracking category, two completed runs that log a record
    each, starting from no history, leave a history that reads back as
    exactly the two records, the first one first. *)
Theorem two_logs_two_rows (c : Category) (i1 i2 : Inputs) (w0 w1 w2 : World) :
  files w0 !! category_file c = None ->
  is_Some (session_profile w0) ->
  clicked i1 = category_click c ->
  clicked i2 = category_click c ->
  run i1 w0 = (Ok tt, w1) ->
  run i2 w1 = (Ok tt, w2) ->
  exists r1 r2,
    logged_row c i1 r1 /\ logged_row c i2 r2 /\
    load_data (files w2) (category_file c) (category_columns c) =
      Ok (mkDataFrame (category_columns c) [r1; r2]).
Proof.
  intros Hnone Hp Hc1 Hc2 Hr1 Hr2.
  destruct (run_logs c i1 w0 w1 Hp Hc1 Hr1) as (df1 & p1 & Hl1 & Hs1 & Hp1).
  destruct (run_logs c i2 w1 w2 Hp1 Hc2 Hr2) as (df2 & p2 & Hl2 & Hs2 & _).
  unfold load_data, read_csv in Hl1. rewrite Hnone in Hl1. injection Hl1 as <-.
  unfold load_data, read_csv in Hl2. rewrite Hs1 in Hl2. injection Hl2 as <-.
  exists ((new_row c i1 p1).*2), ((new_row c i2 p2).*2).
  split; [exists p1; reflexivity|]. split; [exists p2; reflexivity|].
  unfold load_data, read_csv. rewrite Hs2. destruct c; reflexivity.
Qed.

End Store.

Lemma completed_run `{L : Libs} (r : result unit * World) : fst r = Ok tt -> r = (Ok tt, snd r).
Proof. destruct r as [r w]. simpl. intros ->. reflexivity. Qed.

Lemma two_logs_two_rows_witness :
  exists r1 r2,
    logged_row Exercise (demo_inputs LogExercise 3) r1 /\
    logged_row Exercise (demo_inputs LogExercise 4) r2 /\
    load_data (files demo_w2) (category_file Exercise) (category_columns Exercise) =
      Ok (mkDataFrame (category_columns Exercise) [r1; r2]).
Proof.
  apply (two_logs_two_rows Exercise _ _ demo_w0 demo_w1 demo_w2).
  - vm_compute. reflexivity.
  - vm_compute. eexists. reflexivity.
  - reflexivity.
  - reflexivity.
  - apply (completed_run (L := demo_libs)). vm_compute. reflexivity.
  - apply (completed_run (L := demo_libs)). vm_compute. reflexivity.
Defined.

(** ** The chart layer *)

Section Charts.
Context `{L : Libs}.

(** C6: with no history at all, the progress tab shows a placeholder for
    the calorie, water and sleep categories, and nothing for the exercise
    category: the exercise chart has no [else] branch. *)
Theorem exercise_chart_has_no_placeholder (w : World) :
  (forall c, files w !! category_file c = None) ->
  visualize_tab w =
    (Ok tt,
     mkWorld (cache w) (session_profile w) (files w) (ambient_rng w)
       (page w ++
        [StHeader "Progress Over Time";
         StWarning "No calorie data available. Please log your activity in Daily Tracking.";
         StWarning "No water intake data available. Please log your water intake.";
         StWarning "No sleep data available. Please log your sleep details in Daily Tracking."])).
Proof.
  intros H.
  pose proof (H Calories) as Hc. pose proof (H Exercise) as He.
  pose proof (H Water) as Hw. pose proof (H Sleep) as Hs. simpl in Hc, He, Hw, Hs.
  unfold visualize_tab, calorie_chart, exercise_chart, water_chart, sleep_chart,
    app_load_data, load_data, read_csv, mbind, app_bind, get_files, lift, st. simpl.
  rewrite Hc. simpl. rewrite He. simpl. rewrite Hw. simpl. rewrite Hs. simpl.
  rewrite <- !app_assoc. reflexivity.
Qed.

(** The exercise chart alone, on an empty exercise history: the page is
    left as it was. *)
Lemma exercise_chart_empty (w : World) (df : DataFrame) :
  load_data (files w) exercise_file exercise_columns = Ok df ->
  empty df = true ->
  exercise_chart w = (Ok tt, w).
Proof.
  intros Hl He. unfold exercise_chart, app_load_data, mbind, app_bind, get_files, lift.
  rewrite Hl, He. reflexivity.
Qed.

(** Its siblings show their placeholder in the same situation. *)
Lemma calorie_chart_empty (w : World) (df : DataFrame) :
  load_data (files w) calorie_file calorie_columns = Ok df ->
  empty df = true ->
  page (snd (calorie_chart w)) =
    page w ++
    [StWarning "No calorie data available. Please log your activity in Daily Tracking."].
Proof.
  intros Hl He. unfold calorie_chart, app_load_data, mbind, app_bind, get_files, lift.
  rewrite Hl, He. reflexivity.
Qed.

(** A history with rows is charted, after its date column was coerced. *)
Lemma exercise_chart_nonempty (w : World) (df df' : DataFrame) :
  load_data (files w) exercise_file exercise_columns = Ok df ->
  empty df = false ->
  coerce_date df = Ok df' ->
  columns df = exercise_columns ->
  page (snd (exercise_chart w)) =
    page w ++
    [StPlotlyChart (PxBar df' "date" "duration" "exercise_type" "Exercise Duration Over Time")].
Proof.
  intros Hl He Hd Hcols.
  unfold exercise_chart, app_load_data, mbind, app_bind, get_files, lift.
  rewrite Hl, He. simpl. rewrite Hd.
  assert (Hc' : columns df' = exercise_columns).
  { unfold coerce_date, mbind, result_bind in Hd.
    destruct (get_col df "date"); [|discriminate].
    destruct (pd_to_datetime _); [|discriminate].
    injection Hd as <-. simpl. rewrite Hcols. reflexivity. }
  unfold px_bar. rewrite Hc'. reflexivity.
Qed.

End Charts.

Lemma exercise_chart_has_no_placeholder_witness :
  page (snd (visualize_tab demo_world)) =
    [StHeader "Progress Over Time";
     StWarning "No calorie data available. Please log your activity in Daily Tracking.";
     StWarning "No water intake data available. Please log your water intake.";
     StWarning "No sleep data available. Please log your sleep details in Daily Tracking."].
Proof.
  rewrite (exercise_chart_has_no_placeholder demo_world); [reflexivity|].
  intros []; vm_compute; reflexivity.
Defined.

(** ** The estimator *)

Section Estimator.
Context `{L : Libs}.








(** The feature columns of a fitted model are the six features, in the
    order of line 50. *)
Lemma prepare_model_columns w model feature_columns w' :
  prepare_model w = (Ok (model, feature_columns), w') ->
  feature_columns = feature_names.
Proof.
  unfold prepare_model. intros H.
  repeat (apply bind_Ok in H as (? & ? & ? & H)).
  match goal with
  | HX : lift (select_cols ?d _) _ = (Ok ?X, _) |- _ =>
      assert (HcX : columns X = feature_names);
      [ unfold lift, select_cols in HX; destruct (forallb _ _) in HX; [|discriminate];
        injection HX as <- _; reflexivity | ]
  end.
  match goal with
  | _ : train_test_split _ _ _ _ _ = (Ok ?s, _) |- _ => destruct s as [[[? ?] ?] ?]
  end.
  apply bind_Ok in H as (? & ? & _ & H).
  injection H as _ <- _. exact HcX.
Qed.

(** C9: the male indicator of the features passed to the estimator is 1
    exactly when the profile's gender is "Male"; "Female" and "Other" both
    give 0. *)
Theorem male_indicator_binary
    (profile : Profile) (duration heart_rate : Z) (body_temp : float) :
  get_col (user_data feature_names profile duration heart_rate body_temp) "Gender_Male" =
    Ok [CInt (gender_male (gender profile))] /\
  (gender_male (gender profile) = 1 <-> gender profile = "Male") /\
  (gender_male (gender profile) = 0 <-> gender profile <> "Male") /\
  gender_male "Female" = 0 /\ gender_male "Other" = 0.
Proof.
  split; [reflexivity|]. unfold gender_male.
  destruct (String.eqb_spec (gender profile) "Male") as [-> | Hne]; repeat split;
    try reflexivity; try discriminate; try congruence; intros; lia.
Qed.

End Estimator.

(** ** The calorie history *)

Section CalorieHistory.
Context `{L : Libs}.

Lemma preserves_bind I {A B} (m : App A) (k : A -> App B) :
  preserves I m -> (forall a, preserves I (k a)) -> preserves I (m ≫= k).
Proof.
  intros Hm Hk w Hw. specialize (Hm w Hw). unfold mbind, app_bind.
  destruct (m w) as [[a | e] w1]; simpl in *; [apply Hk, Hm | exact Hm].
Qed.























End CalorieHistory.



(** * Further properties of the script *)

(** ** The store's error handling *)

Section StoreExtras.

(** X6. [load_data] handles the missing file and nothing else. *)
Theorem load_data_errors (fs : gmap string FileContent) (file_name : string)
    (default_columns : list string) :
  load_data fs file_name default_columns <> Raise FileNotFoundError /\
  (fs !! file_name = Some Unparsable ->
   load_data fs file_name default_columns = Raise ParserError) /\
  (forall df, fs !! file_name = Some (Csv df) ->
   load_data fs file_name default_columns = Ok df).
Proof.
  unfold load_data, read_csv.
  destruct (fs !! file_name) as [[df|]|]; repeat split; try discriminate; congruence.
Qed.

End StoreExtras.

(** ** What a run leaves as it was *)

Section Same.
Context `{L : Libs}.

#[global] Instance same_preorder {T} (proj : World -> T) : PreOrder (same proj).
Proof.
  split; [intros w; reflexivity | intros w1 w2 w3 H1 H2; unfold same in *; congruence].
Qed.

End Same.

Ltac same_steps :=
  repeat first
    [ solve [unfold frames, same; intros ?; reflexivity]
    | apply frames_bind; [apply _ | | intros ?]
    | progress cbv beta iota zeta
    | match goal with
      | |- frames _ (match ?x with _ => _ end) => destruct x
      | |- frames _ (if ?x then _ else _) => destruct x
      end ].

Section RunsLeave.
Context `{L : Libs}.

Lemma prepare_model_pure (w : World) : snd (prepare_model w) = w.
Proof.
  revert w. change (frames (same (fun w => w)) prepare_model).
  unfold prepare_model, train_test_split, RandomForestRegressor_fit. same_steps.
Qed.

(** X7. Fitting the model has no side effect: whether it returns a model or
    raises, it writes no file, and as both random calls are seeded it leaves
    the process-wide generator alone. *)
Theorem prepare_model_no_side_effect (w : World) :
  let w' := snd (prepare_model w) in
  files w' = files w /\ ambient_rng w' = ambient_rng w /\
  cache w' = cache w /\ session_profile w' = session_profile w /\ page w' = page w.
Proof. cbv zeta. rewrite prepare_model_pure. auto. Qed.

Lemma same_state_visualize_tab :
  frames (same (fun w => (cache w, session_profile w, files w, ambient_rng w))) visualize_tab.
Proof.
  unfold visualize_tab, calorie_chart, exercise_chart, water_chart, sleep_chart.
  same_steps.
Qed.

(** X17. The chart layer only reads: whatever it renders, and whether or not it
    raises, the cache, the session, the files and the generator are as
    before. *)
Theorem visualize_tab_read_only (w : World) :
  let w' := snd (visualize_tab w) in
  cache w' = cache w /\ session_profile w' = session_profile w /\
  files w' = files w /\ ambient_rng w' = ambient_rng w.
Proof.
  pose proof (same_state_visualize_tab w) as H. unfold same in H.
  injection H as H1 H2 H3 H4. auto.
Qed.

End RunsLeave.

Section Session.
Context `{L : Libs}.

Lemma same_cache_resource {T} (proj : World -> T) :
  (forall c s f g p v, proj (mkWorld (Some v) s f g p) = proj (mkWorld c s f g p)) ->
  (forall c s f g p u, proj (mkWorld c s f g (p ++ [u])) = proj (mkWorld c s f g p)) ->
  frames (same proj) (cache_resource prepare_model).
Proof.
  intros Hc Hp w. unfold same, cache_resource, mbind, app_bind, get_cache.
  destruct (cache w) as [v|]; [reflexivity|].
  pose proof (prepare_model_pure w) as Hw.
  destruct (prepare_model w) as [[v|e] w1]; simpl in *; subst w1; [|reflexivity].
  destruct w. apply Hc.
Qed.

Lemma same_profile_tracking_tab model cols i :
  frames (same session_profile) (tracking_tab model cols i).
Proof.
  unfold tracking_tab, calorie_tab, exercise_tab, water_tab, sleep_tab,
    app_load_data, app_save_data.
  same_steps.
Qed.

Lemma same_profile_visualize_tab : frames (same session_profile) visualize_tab.
Proof.
  intros w. pose proof (same_state_visualize_tab w) as H. unfold same in *.
  injection H as _ H _ _. exact H.
Qed.

Lemma same_profile_files_profile_tab i :
  clicked i <> UpdateProfile ->
  frames (same (fun w => (session_profile w, files w))) (profile_tab i).
Proof.
  intros Hc. unfold profile_tab. destruct (clicked i); try congruence; same_steps.
Qed.

(** X13. The profile is session state that only the "Update Profile" button
    changes: after a run started by anything else it is what it was. *)
Theorem profile_changes_on_update_only (i : Inputs) (w : World) :
  clicked i <> UpdateProfile ->
  session_profile (snd (run i w)) = session_profile w.
Proof.
  intros Hc. unfold run.
  set (w0 := mkWorld _ _ _ _ _).
  change (session_profile w) with (session_profile w0).
  clearbody w0. revert w0. change (frames (same session_profile) (script i)). unfold script.
  apply frames_bind; [apply _ | apply same_cache_resource; reflexivity | intros [model cols]].
  apply frames_bind; [apply _ | unfold frames, same; reflexivity | intros ?].
  apply frames_bind; [apply _ | | intros ?].
  { intros w0. pose proof (same_profile_files_profile_tab i Hc w0) as H.
    unfold same in *. congruence. }
  apply frames_bind; [apply _ | apply same_profile_tracking_tab | intros ?].
  apply same_profile_visualize_tab.
Qed.

Lemma preserves_same_profile {A} (m : App A) :
  frames (same session_profile) m -> preserves profile_bmi_ok m.
Proof. intros H w Hw p. rewrite (H w). apply Hw. Qed.

Lemma preserves_profile_tab i : preserves profile_bmi_ok (profile_tab i).
Proof.
  unfold profile_tab.
  apply preserves_bind; [solve [apply preserves_same_profile; same_steps] | intros _].
  apply preserves_bind; [ | intros _; solve [apply preserves_same_profile; same_steps]].
  destruct (clicked i); try solve [apply preserves_same_profile; same_steps].
  unfold preserves. intros w Hw. unfold mbind, app_bind, lift.
  destruct (calculate_bmi (in_height i) (in_weight i)) as [b|e] eqn:Hb; [|exact Hw].
  cbn. intros p [= <-]. exact Hb.
Qed.

Lemma profile_bmi_run i w : profile_bmi_ok w -> profile_bmi_ok (snd (run i w)).
Proof.
  intros Hw. unfold run.
  set (w0 := mkWorld _ _ _ _ _).
  assert (Hw0 : profile_bmi_ok w0) by exact Hw. clearbody w0. revert w0 Hw0.
  change (preserves profile_bmi_ok (script i)). unfold script.
  apply preserves_bind;
    [apply preserves_same_profile, same_cache_resource; reflexivity | intros [model cols]].
  apply preserves_bind; [solve [apply preserves_same_profile; same_steps] | intros ?].
  apply preserves_bind; [apply preserves_profile_tab | intros ?].
  apply preserves_bind;
    [apply preserves_same_profile, same_profile_tracking_tab | intros ?].
  apply preserves_same_profile, same_profile_visualize_tab.
Qed.

(** X15. In every state reachable from a session without a profile, the BMI
    held in the session is [calculate_bmi] of the height and weight held
    with it. *)
Theorem profile_bmi_invariant (inputs : list Inputs) (w0 : World) (p : Profile) :
  session_profile w0 = None ->
  session_profile (runs inputs w0) = Some p ->
  calculate_bmi (height p) (weight p) = Ok (bmi p).
Proof.
  intros H0.
  assert (Hw : profile_bmi_ok w0) by (intros q Hq; congruence).
  clear H0. revert w0 Hw. unfold runs.
  induction inputs as [| i inputs IH]; intros w0 Hw; simpl; [apply Hw|].
  apply IH, profile_bmi_run, Hw.
Qed.

End Session.

Lemma profile_changes_on_update_only_witness :
  session_profile (snd (run (demo_inputs LogExercise 3) demo_w0)) = session_profile demo_w0.
Proof. apply profile_changes_on_update_only. discriminate. Defined.

Lemma profile_bmi_invariant_witness :
  calculate_bmi 180 80 = Ok (PyFloat 24.691358024691358).
Proof.
  apply (profile_bmi_invariant [demo_inputs UpdateProfile 1; demo_inputs LogExercise 2]
           demo_world (mkProfile "Female" 180 80 30 (PyFloat 24.691358024691358)));
    vm_compute; reflexivity.
Defined.

Section Gates.
Context `{L : Libs}.

Lemma same_files_cache_resource :
  frames (same (fun w => (session_profile w, files w))) (cache_resource prepare_model).
Proof. apply same_cache_resource; reflexivity. Qed.

Lemma same_files_visualize_tab :
  frames (same (fun w => (session_profile w, files w))) visualize_tab.
Proof.
  intros w. pose proof (same_state_visualize_tab w) as H. unfold same in *.
  injection H as _ H1 H2 _. rewrite H1, H2. reflexivity.
Qed.

#[global] Instance while_no_profile_preorder : PreOrder while_no_profile.
Proof.
  split; [intros w H; auto | intros w1 w2 w3 H1 H2 H].
  destruct (H1 H) as [Hp Hf]. destruct (H2 Hp) as [Hp' Hf']. split; congruence.
Qed.

Lemma while_no_profile_same {A} (m : App A) :
  frames (same (fun w => (session_profile w, files w))) m -> frames while_no_profile m.
Proof. intros H w Hp. specialize (H w). unfold same in H. injection H as -> ->. auto. Qed.

Lemma while_no_profile_tracking_tab model cols i :
  frames while_no_profile (tracking_tab model cols i).
Proof.
  intros w Hp. unfold tracking_tab, mbind, app_bind, get_profile. cbn [fst snd].
  rewrite Hp. auto.
Qed.

(** X12. The daily-tracking forms exist only once a profile is set (line 94):
    in a session without a profile, no run other than a profile update
    writes any file, and the session stays without a profile. *)
Theorem no_profile_no_write (i : Inputs) (w : World) :
  session_profile w = None ->
  clicked i <> UpdateProfile ->
  files (snd (run i w)) = files w /\ session_profile (snd (run i w)) = None.
Proof.
  intros Hp Hc.
  assert (H : frames while_no_profile (script i)).
  { unfold script.
    apply frames_bind;
      [apply _ | apply while_no_profile_same, same_files_cache_resource | intros [model cols]].
    apply frames_bind; [apply _ | apply while_no_profile_same; same_steps | intros ?].
    apply frames_bind;
      [apply _ | apply while_no_profile_same, same_profile_files_profile_tab, Hc | intros ?].
    apply frames_bind; [apply _ | apply while_no_profile_tracking_tab | intros ?].
    apply while_no_profile_same, same_files_visualize_tab. }
  unfold run. destruct (H (mkWorld (cache w) (session_profile w) (files w) (ambient_rng w) []) Hp)
    as [H1 H2].
  split; assumption.
Qed.

(** X10. The fitted model is a resource of the process: once it is cached, no
    sequence of runs replaces or drops it. *)
Theorem cached_model_stays (inputs : list Inputs) (w : World) (mc : Model * list string) :
  cache w = Some mc -> cache (runs inputs w) = Some mc.
Proof.
  revert w. unfold runs.
  induction inputs as [| i inputs IH]; intros w Hw; simpl; [exact Hw|].
  apply IH. destruct (keeps_run i w) as (_ & Hc & _). auto.
Qed.

(** X11. A run writes at most the file of the button that started it: every
    other file, the reference tables among them, is left as it was. *)
Theorem run_writes_own_file_only (i : Inputs) (w : World) (g : string) :
  Some g <> written_file (clicked i) ->
  files (snd (run i w)) !! g = files w !! g.
Proof. intros Hg. destruct (keeps_run i w) as (Hf & _). auto. Qed.

(** X9. The reference tables are read without a handler: on a first run, when
    [calories.csv] is missing, or is readable while [exercise.csv] is
    missing, the run stops with [FileNotFoundError] before anything is
    rendered, and caches and writes nothing. *)
Theorem missing_reference_aborts (i : Inputs) (w : World) :
  cache w = None ->
  files w !! "calories.csv" = None \/
  (exists df, files w !! "calories.csv" = Some (Csv df)) /\ files w !! "exercise.csv" = None ->
  run i w =
    (Raise FileNotFoundError,
     mkWorld None (session_profile w) (files w) (ambient_rng w) []).
Proof.
  intros Hc Hf.
  unfold run, script, cache_resource, prepare_model, app_read_csv, read_csv,
    mbind, app_bind, get_cache, get_files, lift.
  cbn [fst snd cache files]. rewrite Hc. cbn [fst snd cache files].
  destruct Hf as [-> | [[df ->] ->]]; reflexivity.
Qed.

End Gates.

Lemma no_profile_no_write_witness :
  files (snd (run (demo_inputs LogExercise 3) demo_world)) = files demo_world /\
  session_profile (snd (run (demo_inputs LogExercise 3) demo_world)) = None.
Proof. apply no_profile_no_write; [reflexivity | discriminate]. Defined.

Lemma cached_model_stays_witness :
  cache (runs [demo_inputs LogExercise 3; demo_inputs NoClick 4] demo_w0) =
    Some (7%float, feature_names).
Proof. apply (cached_model_stays (L := demo_libs)). vm_compute. reflexivity. Defined.

Lemma run_writes_own_file_only_witness :
  files (snd (run (demo_inputs LogExercise 3) demo_w0)) !! "exercise.csv" =
    files demo_w0 !! "exercise.csv".
Proof. apply run_writes_own_file_only. discriminate. Defined.

Lemma missing_reference_aborts_witness :
  run (demo_inputs NoClick 1) (mkWorld None None ∅ 0 []) =
    (Raise FileNotFoundError, mkWorld None None ∅ 0 []).
Proof. apply (missing_reference_aborts (demo_inputs NoClick 1)); [reflexivity | left; reflexivity]. Defined.

Section Histories.
Context `{L : Libs}.

Lemma concat_logged (c : Category) (rows0 : list (list Cell)) (i : Inputs) (p : float) :
  Forall (fun r => exists i', logged_row c i' r) rows0 ->
  concat (mkDataFrame (category_columns c) rows0) (frame_of_record (new_row c i p)) =
    mkDataFrame (category_columns c) (rows0 ++ [(new_row c i p).*2]).
Proof.
  intros Hrows. unfold concat. cbn [columns rows].
  assert (Hcols : category_columns c ++
            filter (fun k => negb (elem_ofb k (category_columns c)))
              (columns (frame_of_record (new_row c i p))) = category_columns c)
    by (destruct c; reflexivity).
  rewrite Hcols. f_equal. f_equal; [|destruct c; reflexivity].
  induction Hrows as [| r rows0 (i' & p' & ->) _ IH]; [reflexivity|].
  cbn [map]. rewrite IH. f_equal. destruct c; reflexivity.
Qed.

Lemma logs_append (c : Category) (inputs : list Inputs) :
  forall (w wn : World) (rows0 : list (list Cell)),
    load_data (files w) (category_file c) (category_columns c) =
      Ok (mkDataFrame (category_columns c) rows0) ->
    Forall (fun r => exists i', logged_row c i' r) rows0 ->
    is_Some (session_profile w) ->
    Forall (fun i => clicked i = category_click c) inputs ->
    run_all inputs w = Some wn ->
    exists rows,
      Forall2 (logged_row c) inputs rows /\
      load_data (files wn) (category_file c) (category_columns c) =
        Ok (mkDataFrame (category_columns c) (rows0 ++ rows)).
Proof.
  induction inputs as [| i inputs IH]; intros w wn rows0 Hl Hrows Hp Hc Hrun.
  - injection Hrun as <-. exists []. rewrite app_nil_r. split; [constructor | exact Hl].
  - apply Forall_cons in Hc as [Hci Hc]. cbn [run_all] in Hrun.
    destruct (run i w) as [[[] | e] w'] eqn:Hr; [|discriminate].
    destruct (run_logs c i w w' Hp Hci Hr) as (df & p & Hdf & Hs & Hp').
    rewrite Hl in Hdf. injection Hdf as <-.
    rewrite concat_logged in Hs by exact Hrows.
    destruct (IH w' wn (rows0 ++ [(new_row c i p).*2])) as (rows & Hrows' & Hl'); auto.
    + unfold load_data, read_csv. rewrite Hs. reflexivity.
    + apply Forall_app. split; [exact Hrows|]. repeat constructor. exists i, p. reflexivity.
    + exists ((new_row c i p).*2 :: rows). split.
      * constructor; [exists p; reflexivity | exact Hrows'].
      * rewrite Hl', <- app_assoc. reflexivity.
Qed.

(** X16. Append-only, in order, for any number of records: after any sequence
    of completed runs that each log to the same category, starting from no
    file, the history reads back as exactly the logged records, one row
    per run, in the order of the runs. *)
Theorem logs_in_order (c : Category) (inputs : list Inputs) (w0 wn : World) :
  files w0 !! category_file c = None ->
  is_Some (session_profile w0) ->
  Forall (fun i => clicked i = category_click c) inputs ->
  run_all inputs w0 = Some wn ->
  exists rows,
    Forall2 (logged_row c) inputs rows /\
    load_data (files wn) (category_file c) (category_columns c) =
      Ok (mkDataFrame (category_columns c) rows).
Proof.
  intros H0 Hp Hc Hrun.
  apply (logs_append c inputs w0 wn []); auto.
  unfold load_data, read_csv. rewrite H0. reflexivity.
Qed.

(** X8. The features handed to a model that [prepare_model] returned: one row,
    no missing cell, in the order of the columns the model was fitted on. *)
Theorem features_of_fitted_model (w w' : World) (model : Model) (feature_columns : list string)
    (profile : Profile) (duration heart_rate : Z) (body_temp : float) :
  prepare_model w = (Ok (model, feature_columns), w') ->
  user_data feature_columns profile duration heart_rate body_temp =
    mkDataFrame ["Age"; "BMI"; "Duration"; "Heart_Rate"; "Body_Temp"; "Gender_Male"]
      [[CInt (age profile); cell_of_num (bmi profile); CInt duration; CInt heart_rate;
        CFloat body_temp; CInt (gender_male (gender profile))]].
Proof. intros H. apply prepare_model_columns in H. subst. reflexivity. Qed.

End Histories.

Lemma run_all_completed `{L : Libs} (inputs : list Inputs) (w : World) :
  match run_all inputs w with Some _ => true | None => false end = true ->
  run_all inputs w = Some (runs inputs w).
Proof.
  revert w. unfold runs. induction inputs as [| i inputs IH]; intros w; cbn; [reflexivity|].
  destruct (run i w) as [[u | e] w']; cbn; [apply IH | discriminate].
Qed.

Lemma logs_in_order_witness :
  exists rows,
    Forall2 (logged_row Water)
      [demo_inputs LogWaterIntake 2; demo_inputs LogWaterIntake 3; demo_inputs LogWaterIntake 4]
      rows /\
    load_data
      (files (runs [demo_inputs LogWaterIntake 2; demo_inputs LogWaterIntake 3;
                    demo_inputs LogWaterIntake 4] demo_w0))
      (category_file Water) (category_columns Water) =
      Ok (mkDataFrame (category_columns Water) rows).
Proof.
  apply (logs_in_order (L := demo_libs) Water _ demo_w0).
  - vm_compute. reflexivity.
  - vm_compute. eexists. reflexivity.
  - repeat constructor.
  - apply run_all_completed. vm_compute. reflexivity.
Defined.

Lemma features_of_fitted_model_witness :
  user_data feature_names (mkProfile "Male" 180 80 30 (PyFloat 24.5)) 20 120 38 =
    mkDataFrame ["Age"; "BMI"; "Duration"; "Heart_Rate"; "Body_Temp"; "Gender_Male"]
      [[CInt 30; CFloat 24.5; CInt 20; CInt 120; CFloat 38; CInt 1]].
Proof.
  apply (features_of_fitted_model (L := demo_libs) demo_world demo_world 7%float).
  rewrite (surjective_pairing (prepare_model demo_world)), prepare_model_pure.
  apply (f_equal2 pair); [vm_compute; reflexivity | reflexivity].
Defined.

Section ChartsOfCategories.
Context `{L : Libs}.

Lemma coerce_date_columns (df df' : DataFrame) :
  coerce_date df = Ok df' -> elem_ofb "date" (columns df) = true /\ columns df' = columns df.
Proof.
  unfold coerce_date, get_col, mbind, result_bind.
  destruct (elem_ofb "date" (columns df)) eqn:Hd; [|discriminate].
  destruct (pd_to_datetime _); [|discriminate].
  intros [= <-]. split; [reflexivity|]. cbn [set_col columns]. rewrite Hd. reflexivity.
Qed.

(** X18. For every category, a history with rows and the category's columns is
    charted once its date column was coerced: one figure over the coerced
    table, two for sleep, and nothing else is touched. *)
Theorem chart_renders (c : Category) (w : World) (df df' : DataFrame) :
  load_data (files w) (category_file c) (category_columns c) = Ok df ->
  empty df = false ->
  columns df = category_columns c ->
  coerce_date df = Ok df' ->
  category_chart c w =
    (Ok tt,
     mkWorld (cache w) (session_profile w) (files w) (ambient_rng w)
       (page w ++ map StPlotlyChart (category_figures c df'))).
Proof.
  intros Hl He Hcols Hd.
  destruct (coerce_date_columns df df' Hd) as [_ Hc']. rewrite Hcols in Hc'.
  destruct c; cbn [category_chart category_file category_columns] in *;
    unfold calorie_chart, exercise_chart, water_chart, sleep_chart,
      app_load_data, mbind, app_bind, get_files, lift;
    cbn [fst snd]; rewrite Hl, He; cbn [negb]; rewrite Hd;
    unfold px_line, px_bar, st; rewrite Hc'; cbn; rewrite <- ?app_assoc; reflexivity.
Qed.

(** X19. A file is read without a check of its columns: a history with rows
    but no ["date"] column makes the chart of its category raise
    [KeyError], with nothing rendered for it. *)
Theorem chart_without_date_raises (c : Category) (w : World) (df : DataFrame) :
  load_data (files w) (category_file c) (category_columns c) = Ok df ->
  empty df = false ->
  elem_ofb "date" (columns df) = false ->
  category_chart c w = (Raise KeyError, w).
Proof.
  intros Hl He Hd.
  destruct c; cbn [category_chart category_file category_columns] in *;
    unfold calorie_chart, exercise_chart, water_chart, sleep_chart,
      app_load_data, mbind, app_bind, get_files, lift;
    cbn [fst snd]; rewrite Hl, He; cbn [negb];
    unfold coerce_date, get_col; rewrite Hd; reflexivity.
Qed.

End ChartsOfCategories.

Lemma chart_renders_witness :
  category_chart Exercise demo_w2 =
    (Ok tt,
     mkWorld (cache demo_w2) (session_profile demo_w2) (files demo_w2) (ambient_rng demo_w2)
       (page demo_w2 ++
        map StPlotlyChart
          (category_figures Exercise
             (mkDataFrame exercise_columns
                [[CDate 3; CStr "Running"; CInt 30]; [CDate 4; CStr "Running"; CInt 30]])))).
Proof.
  apply (chart_renders (L := demo_libs) Exercise demo_w2
           (mkDataFrame exercise_columns
              [[CDate 3; CStr "Running"; CInt 30]; [CDate 4; CStr "Running"; CInt 30]]));
    vm_compute; reflexivity.
Defined.

Lemma chart_without_date_raises_witness :
  category_chart Water (mkWorld None None demo_stale_files 0 []) =
    (Raise KeyError, mkWorld None None demo_stale_files 0 []).
Proof.
  apply (chart_without_date_raises (L := demo_libs) Water _
           (mkDataFrame ["day"; "glasses"] [[CDate 1; CInt 8]]));
    vm_compute; reflexivity.
Defined.

Section ProfileUpdate.
Context `{L : Libs}.

Lemma profile_tab_sets (i : Inputs) (w : World) (b : PyNum) :
  clicked i = UpdateProfile ->
  calculate_bmi (in_height i) (in_weight i) = Ok b ->
  session_profile (snd (profile_tab i w)) =
    Some (mkProfile (in_gender i) (in_height i) (in_weight i) (in_age i) b).
Proof.
  intros Hc Hb. unfold profile_tab. rewrite Hc, Hb.
  unfold mbind, app_bind, lift, put_profile, get_profile, st.
  cbn [fst snd session_profile bmi].
  destruct (num_format_2f b); reflexivity.
Qed.

(** X14. An update replaces the whole profile: once the model is cached, a run
    started by "Update Profile" whose BMI computes leaves in the session
    exactly the values of the four widgets and that BMI, whatever the
    profile was before and whatever the later tabs do. *)
Theorem profile_update_overwrites (i : Inputs) (w : World) (mc : Model * list string)
    (b : PyNum) :
  cache w = Some mc ->
  clicked i = UpdateProfile ->
  calculate_bmi (in_height i) (in_weight i) = Ok b ->
  session_profile (snd (run i w)) =
    Some (mkProfile (in_gender i) (in_height i) (in_weight i) (in_age i) b).
Proof.
  intros Hcache Hc Hb. unfold run, script.
  unfold mbind at 1, app_bind at 1, cache_resource, mbind at 1, app_bind at 1, get_cache.
  cbn [fst snd cache]. rewrite Hcache. cbn [mret app_ret]. destruct mc as [model cols].
  unfold mbind at 1, app_bind at 1, st at 1. cbn [fst snd].
  set (w1 := mkWorld _ _ _ _ _).
  unfold mbind at 1, app_bind at 1.
  pose proof (profile_tab_sets i w1 b Hc Hb) as Hp.
  destruct (profile_tab i w1) as [[[] | e] w2]; cbn [snd] in *; [|exact Hp].
  assert (H : frames (same session_profile)
                (tracking_tab model cols i ≫= fun _ => visualize_tab)).
  { apply frames_bind;
      [apply _ | apply same_profile_tracking_tab | intros _; apply same_profile_visualize_tab]. }
  rewrite (H w2). exact Hp.
Qed.

End ProfileUpdate.

Lemma profile_update_overwrites_witness :
  session_profile (snd (run (demo_inputs UpdateProfile 5) demo_w2)) =
    Some (mkProfile "Female" 180 80 30 (PyFloat 24.691358024691358)).
Proof.
  apply (profile_update_overwrites (L := demo_libs) (demo_inputs UpdateProfile 5) demo_w2
           (7%float, feature_names) (PyFloat 24.691358024691358));
    vm_compute; reflexivity.
Defined.

(** ** The BMI over the ranges of the widgets *)

Lemma forall_ranges (P : Z -> Z -> bool) (h0 hn w0 wn : Z) :
  forallb (fun h => forallb (P h) (seqZ w0 wn)) (seqZ h0 hn) = true ->
  forall h w, h0 <= h < h0 + hn -> w0 <= w < w0 + wn -> P h w = true.
Proof.
  intros Hall h w Hh Hw. rewrite forallb_forall in Hall.
  specialize (Hall h). rewrite forallb_forall in Hall.
  apply Hall; apply list_elem_of_In, elem_of_seqZ; lia.
Qed.

(** X4. On the ranges of the profile's widgets (height 100..250, weight
    30..200) the BMI is a float between 4.8 and 200. *)
Theorem calculate_bmi_widget_bounds (height weight : Z) :
  100 <= height <= 250 -> 30 <= weight <= 200 ->
  exists b, calculate_bmi height weight = Ok (PyFloat b) /\
    (4.8 <=? b)%float = true /\ (b <=? 200)%float = true.
Proof.
  intros Hh Hw.
  assert (H : bmi_in_range height weight = true).
  { apply (forall_ranges bmi_in_range 100 151 30 171); [vm_compute; reflexivity | lia | lia]. }
  unfold bmi_in_range in H.
  destruct (calculate_bmi height weight) as [[z | b] | e]; try discriminate.
  apply andb_prop in H. eauto.
Qed.

(** X5. On the ranges of the profile's widgets (height 100..250, weight
    30..200), rounding included, the BMI grows strictly with the
    weight and falls strictly with the height. *)
Theorem calculate_bmi_monotone (height weight : Z) (b : float) :
  100 <= height <= 250 -> 30 <= weight <= 200 ->
  calculate_bmi height weight = Ok (PyFloat b) ->
  (forall b', weight < 200 -> calculate_bmi height (weight + 1) = Ok (PyFloat b') ->
     (b <? b')%float = true) /\
  (forall b', height < 250 -> calculate_bmi (height + 1) weight = Ok (PyFloat b') ->
     (b' <? b)%float = true).
Proof.
  intros Hh Hw Hb. split; intros b' Hlt Hb'.
  - assert (H : bmi_grows_with_weight height weight = true).
    { apply (forall_ranges bmi_grows_with_weight 100 151 30 170);
        [vm_compute; reflexivity | lia | lia]. }
    unfold bmi_grows_with_weight in H. rewrite Hb, Hb' in H. exact H.
  - assert (H : bmi_falls_with_height height weight = true).
    { apply (forall_ranges bmi_falls_with_height 100 150 30 171);
        [vm_compute; reflexivity | lia | lia]. }
    unfold bmi_falls_with_height in H. rewrite Hb, Hb' in H. exact H.
Qed.

Lemma calculate_bmi_widget_bounds_witness :
  exists b, calculate_bmi 180 80 = Ok (PyFloat b) /\
    (4.8 <=? b)%float = true /\ (b <=? 200)%float = true.
Proof. apply calculate_bmi_widget_bounds; lia. Defined.

Lemma calculate_bmi_monotone_witness :
  (forall b', 80 < 200 -> calculate_bmi 180 (80 + 1) = Ok (PyFloat b') ->
     (24.691358024691358 <? b')%float = true) /\
  (forall b', 180 < 250 -> calculate_bmi (180 + 1) 80 = Ok (PyFloat b') ->
     (b' <? 24.691358024691358)%float = true).
Proof. apply calculate_bmi_monotone; [lia | lia | vm_compute; reflexivity]. Defined.
